(** * breath-u1: the wellbeing pipeline, embedded and verified

    A shallow embedding of the request pipeline of the repository
    (emotion classifier, slot allocator, feedback synthesiser and
    coordinator), followed by the properties proved about it.

    Conventions of the embedding.
    - A Python [str] is the list of its code points ([pystr]); literals are
      written as UTF-8 text and decoded by [utf8].
    - A Python [int] is a [Z]; a Python [float] is an exact rational [Q]
      (comparisons, [min], [max] and [round] are the exact ones).
    - A Python exception is a value of [exn]; code that may raise returns
      [exn + A].
    - What the code takes from the interpreter and its Unicode tables
      ([str.lower], the decimal digits, the digit limit of [int]) is a field
      of the class [PyRuntime]; every theorem holds for every runtime. *)

From Stdlib Require Import ZArith QArith Qminmax Qround List String Ascii Bool Lia.
From Stdlib Require Import DecimalString.
From Stdlib Require Import Lqa.
Import ListNotations.
Open Scope list_scope.

(* ================================================================== *)
(** * Part I. The model *)
(* ================================================================== *)

(** ** Python strings *)

Definition pystr := list N.

(** Decoder of UTF-8 literals into code points. *)
Fixpoint utf8 (s : string) : pystr :=
  match s with
  | EmptyString => []
  | String a r =>
    let b0 := N_of_ascii a in
    if (b0 <? 192)%N then b0 :: utf8 r
    else
      match r with
      | EmptyString => [b0]
      | String b r1 =>
        let b1 := N_of_ascii b in
        if (b0 <? 224)%N then ((b0 - 192) * 64 + (b1 - 128))%N :: utf8 r1
        else
          match r1 with
          | EmptyString => [b0; b1]
          | String c r2 =>
            let b2 := N_of_ascii c in
            if (b0 <? 240)%N
            then (((b0 - 224) * 64 + (b1 - 128)) * 64 + (b2 - 128))%N :: utf8 r2
            else
              match r2 with
              | EmptyString => [b0; b1; b2]
              | String d r3 =>
                let b3 := N_of_ascii d in
                ((((b0 - 240) * 64 + (b1 - 128)) * 64 + (b2 - 128)) * 64
                 + (b3 - 128))%N :: utf8 r3
              end
          end
      end
  end.

Fixpoint str_eqb (a b : pystr) : bool :=
  match a, b with
  | [], [] => true
  | x :: a', y :: b' => (x =? y)%N && str_eqb a' b'
  | _, _ => false
  end.

(** [w in ws] for a list of strings. *)
Definition str_mem (w : pystr) (ws : list pystr) : bool :=
  existsb (str_eqb w) ws.

Fixpoint startswith (w s : pystr) : bool :=
  match w, s with
  | [], _ => true
  | _ :: _, [] => false
  | x :: w', y :: s' => (x =? y)%N && startswith w' s'
  end.

(** [w in s] for two strings: [w] occurs in [s] as a substring. *)
Fixpoint contains (w s : pystr) : bool :=
  startswith w s ||
  match s with
  | [] => false
  | _ :: s' => contains w s'
  end.

(** [any(word in s for word in words)] *)
Definition any_in (words : list pystr) (s : pystr) : bool :=
  existsb (fun word => contains word s) words.

(** [str.isspace] on one code point, which is also the class [\s] of [re]
    on [str] patterns. *)
Definition isspace (c : N) : bool :=
  ((9 <=? c) && (c <=? 13) || (28 <=? c) && (c <=? 32) || (c =? 133)
   || (c =? 160) || (c =? 5760) || (8192 <=? c) && (c <=? 8202)
   || (c =? 8232) || (c =? 8233) || (c =? 8239) || (c =? 8287)
   || (c =? 12288))%N.

Fixpoint lstrip (s : pystr) : pystr :=
  match s with
  | [] => []
  | c :: s' => if isspace c then lstrip s' else s
  end.

(** [s.strip()] *)
Definition strip (s : pystr) : pystr := rev (lstrip (rev (lstrip s))).

(** [len(s)] *)
Definition len {A} (l : list A) : Z := Z.of_nat (List.length l).

(** [sep.join(parts)] *)
Fixpoint join (sep : pystr) (parts : list pystr) : pystr :=
  match parts with
  | [] => []
  | [p] => p
  | p :: rest => p ++ sep ++ join sep rest
  end.

(** [str(n)] for a natural number. *)
Definition str_of_nat (n : nat) : pystr :=
  utf8 (NilEmpty.string_of_uint (Nat.to_uint n)).

(** The part of the interpreter the code calls and the model does not
    define: [str.lower]; the value of a decimal digit, for every code
    point of category Nd, which is what [\d] matches and [int] reads; and
    [sys.get_int_max_str_digits()], the longest digit string [int]
    converts, 0 when the interpreter has no such limit. *)
Class PyRuntime := {
  str_lower : pystr -> pystr;
  decimal_value : N -> option Z;
  int_max_str_digits : Z
}.

(** A runtime to run the model on examples: [str.lower] on the Basic
    Latin and Latin-1 blocks, which hold every letter of the keyword
    tables, the digits [0]..[9], and the default digit limit of 4300. *)
Definition latin1_lower_char (c : N) : N :=
  if ((65 <=? c) && (c <=? 90))%N then (c + 32)%N
  else if ((192 <=? c) && (c <=? 222) && negb (c =? 215))%N then (c + 32)%N
  else c.

Definition ascii_digit (c : N) : option Z :=
  if ((48 <=? c) && (c <=? 57))%N then Some (Z.of_N (c - 48)) else None.

Definition latin1 : PyRuntime :=
  {| str_lower := map latin1_lower_char;
     decimal_value := ascii_digit;
     int_max_str_digits := 4300 |}.

(** ** Regular expressions of the high-stress detector

    The patterns of the source use three constructs: a literal character,
    [.] and [\s+]. *)

Inductive atom :=
| Ch (c : N)      (* a literal character *)
| AnyChar         (* [.]: any character but a newline *)
| Spaces.         (* [\s+] *)

Definition regex := list atom.

Definition lit (s : string) : regex := map Ch (utf8 s).

(** [re.match(p, s)]: some prefix of [s] matches [p]. *)
Fixpoint re_match (p : regex) (s : pystr) {struct s} : bool :=
  match p with
  | [] => true
  | a :: p' =>
    match s with
    | [] => false
    | c :: s' =>
      match a with
      | Ch x => (x =? c)%N && re_match p' s'
      | AnyChar => negb (c =? 10)%N && re_match p' s'
      | Spaces => isspace c && (re_match p' s' || re_match p s')
      end
    end
  end.

(** [re.search(p, s)] as a truth value. *)
Fixpoint re_search (p : regex) (s : pystr) : bool :=
  re_match p s ||
  match s with
  | [] => false
  | _ :: s' => re_search p s'
  end.

(** ** Floats *)

Definition Qgt_bool (x y : Q) : bool := negb (Qle_bool x y).
Definition Qlt_bool (x y : Q) : bool := negb (Qle_bool y x).

(** Rounding of an exact rational to the nearest integer, ties to even. *)
Definition round_half_even (x : Q) : Z :=
  let f := Qfloor x in
  let r := x - inject_Z f in
  if Qlt_bool r (1 # 2) then f
  else if Qlt_bool (1 # 2) r then (f + 1)%Z
  else if Z.even f then f else (f + 1)%Z.

(** [round(x, 2)] and [round(x, 3)] *)
Definition round2 (x : Q) : Q := inject_Z (round_half_even (x * 100)) / 100.
Definition round3 (x : Q) : Q := inject_Z (round_half_even (x * 1000)) / 1000.

(** ** Exceptions *)

Inductive exn :=
| Exception (msg : pystr)
| RequestError (msg : pystr)
| RuntimeError (msg : pystr)
| ValueError (msg : pystr)
| TimeoutError.

(** [str(e)] *)
Definition exn_str (e : exn) : pystr :=
  match e with
  | Exception m | RequestError m | RuntimeError m | ValueError m => m
  | TimeoutError => []
  end.

(** ** Affect estimates *)

(** The [emotion] dictionary of a classification, also the
    [emotion_summary] handed to the feedback generator. *)
Record Emotion := {
  stress_score : Q;
  valence : Q;
  dominant : option pystr
}.

(** One [{"label": ..., "score": ...}] entry of the external scorer;
    [label = None] stands for a label that is not a string. *)
Record LabelScore := {
  label : option pystr;
  score : Q
}.

(* ------------------------------------------------------------------ *)
(** ** agents/emotion_agent.py *)
(* ------------------------------------------------------------------ *)

Module EmotionAgent.

(** What the external scorer returns: a list whose items are entries or
    lists of entries, or a value that is not a list. *)
Inductive hf_item :=
| Entry (r : LabelScore)
| Sub (l : list LabelScore).

Inductive hf_results :=
| ResList (l : list hf_item)
| ResOther (r : LabelScore).

(** The dictionary [{"raw": ..., "emotion": ...}] that [classify] returns. *)
Record Classification := {
  raw : list LabelScore;
  emotion : Emotion
}.

(** A built pipeline: called on a text, it raises ([None]) or returns. *)
Definition HFPipeline := pystr -> option hf_results.

(** Outcome of [importlib.import_module("transformers")] followed by
    [getattr(transformers, "pipeline", None)]; the pipeline function, given
    the model name, raises ([None]) or builds a pipeline. *)
Inductive transformers_import :=
| ImportFails
| NoPipelineAttr
| PipelineFn (pipeline_fn : pystr -> option HFPipeline).

(** What the agent does to the outside world. *)
Inductive event :=
| ImportTransformers
| BuildPipeline (model : pystr)
| RunScorer (text : pystr).

Record t := {
  model_name : option pystr;
  _use_hf : bool;
  pipeline : option HFPipeline;
  _pipeline_initialized : bool
}.

Definition set_use_hf (self : t) (b : bool) : t :=
  {| model_name := model_name self; _use_hf := b;
     pipeline := pipeline self;
     _pipeline_initialized := _pipeline_initialized self |}.

Definition set_pipeline (self : t) (p : option HFPipeline) : t :=
  {| model_name := model_name self; _use_hf := _use_hf self;
     pipeline := p;
     _pipeline_initialized := _pipeline_initialized self |}.

Definition set_pipeline_initialized (self : t) (b : bool) : t :=
  {| model_name := model_name self; _use_hf := _use_hf self;
     pipeline := pipeline self;
     _pipeline_initialized := b |}.

(** [__init__(model_name, use_hf)], with [env_use_hf] the value of the
    environment variable [USE_HF]. *)
Definition __init__ (env_use_hf : option pystr) (model_name : option pystr)
    (use_hf : option bool) : t :=
  let use_hf :=
    match use_hf with
    | Some b => b
    | None =>
      match env_use_hf with
      | Some v =>
        negb (str_mem (strip v)
                [utf8 "0"; utf8 "false"; utf8 "False"; utf8 "no"; utf8 "n"])
      | None => false
      end
    end in
  {| model_name := model_name; _use_hf := use_hf;
     pipeline := None; _pipeline_initialized := false |}.

Definition default_model : pystr :=
  utf8 "joeddav/distilbert-base-uncased-go-emotions-student".

Definition is_some {A} (o : option A) : bool :=
  match o with Some _ => true | None => false end.

Definition _ensure_pipeline_initialized (transformers : transformers_import)
    (self : t) : bool * t * list event :=
  if _pipeline_initialized self then (is_some (pipeline self), self, [])
  else if negb (_use_hf self) then
    (false, set_pipeline_initialized self true, [])
  else
    match transformers with
    | ImportFails =>
      (false,
       set_pipeline_initialized (set_use_hf (set_pipeline self None) false) true,
       [ImportTransformers])
    | NoPipelineAttr =>
      (false, set_pipeline_initialized (set_use_hf self false) true,
       [ImportTransformers])
    | PipelineFn pipeline_fn =>
      let model :=
        match model_name self with
        | Some (c :: m) => c :: m
        | _ => default_model
        end in
      match pipeline_fn model with
      | Some p =>
        (true, set_pipeline_initialized (set_pipeline self (Some p)) true,
         [ImportTransformers; BuildPipeline model])
      | None =>
        (false,
         set_pipeline_initialized (set_use_hf (set_pipeline self None) false) true,
         [ImportTransformers; BuildPipeline model])
      end
    end.

Section WithRuntime.
Context {R : PyRuntime}.

(** The flattening of the scorer's result; [None] when the code meets a
    list where it expects an entry and raises. *)
Definition flatten_results (results : hf_results) : option (list LabelScore) :=
  match results with
  | ResOther r => Some [r]
  | ResList l =>
    match l with
    | [] => None
    | Sub _ :: _ =>
      Some (List.concat
              (map (fun item =>
                      match item with Entry r => [r] | Sub rs => rs end) l))
    | Entry _ :: _ =>
      fold_right (fun item acc =>
                    match item, acc with
                    | Entry r, Some rs => Some (r :: rs)
                    | _, _ => None
                    end) (Some []) l
    end
  end.

Definition stress_labels : list pystr :=
  map utf8 ["anger"; "sadness"; "fear"; "annoyance"; "disapproval";
            "disappointment"; "nervousness"]%string.

Definition valence_labels : list pystr :=
  map utf8 ["joy"; "love"; "approval"; "admiration"; "optimism";
            "excitement"]%string.

(** [sum(float(r["score"]) for r in flat if r["label"].lower() in labels)] *)
Definition label_vote (labels : list pystr) (flat : list LabelScore) : Q :=
  fold_left (fun acc r =>
               match label r with
               | Some l => if str_mem (str_lower l) labels
                           then acc + score r else acc
               | None => acc
               end) flat 0.

(** [max(flat, key=score)]: the first entry of greatest score. *)
Fixpoint max_by_score (best : LabelScore) (flat : list LabelScore) : LabelScore :=
  match flat with
  | [] => best
  | r :: rest =>
    if Qlt_bool (score best) (score r) then max_by_score r rest
    else max_by_score best rest
  end.

Definition _classify_with_hf (p : HFPipeline) (text : pystr) : exn + Classification :=
  match p text with
  | None => inl (Exception (utf8 "pipeline"))
  | Some results =>
    match flatten_results results with
    | None => inl (Exception (utf8 "AttributeError"))
    | Some flat =>
      let stress := label_vote stress_labels flat in
      let valence := label_vote valence_labels flat in
      let dominant :=
        match flat with
        | [] => None
        | r :: rest => label (max_by_score r rest)
        end in
      inr {| raw := flat;
             emotion := {| stress_score := Qmin 1 stress;
                           valence := Qmin 1 valence;
                           dominant := dominant |} |}
    end
  end.

Definition stress_indicators : list pystr :=
  map utf8 [
    "stress"; "stressado"; "estressado"; "estressada"; "tensão"; "tenso"; "tensa";
    "ansios"; "ansiedade"; "ansioso"; "ansiosa"; "nervos"; "nervoso"; "nervosa"; "nervousness";
    "preocupad"; "preocupado"; "preocupada"; "angustia"; "angústia"; "angustiado"; "angustiada";
    "medo"; "tem medo"; "assustado"; "assustada"; "pânico"; "ataque de pânico"; "aterrorizado";
    "sobrecarreg"; "sobrecarregado"; "sobrecarregada"; "pressão"; "deadline"; "prazo"; "prazos";
    "exame"; "teste"; "prova"; "exaust"; "exausto"; "exausta"; "esgotado"; "esgotada"; "faculdade"; "universidade";
    "não consigo dormir"; "insônia"; "insonia"; "coração acelerado"; "suor frio";
    "não consigo respirar"; "falta de ar"; "tremor"; "tremores"; "cansado"; "cansada";
    "desesperado"; "desesperada"; "sem esperança"; "não aguento mais"; "no limite";
    "fatigado"; "fatigada"; "esgotamento";
    "irritado"; "irritada"; "zangado"; "zangada"; "raiva"; "furioso"; "furiosa";
    "sobrecarregado"; "sobrecarregada"; "não dou conta"; "muito para fazer";
    "muitas tarefas"; "muito trabalho"; "muita pressão"; "muitos exames"; "muitos trabalhos"
  ]%string.

Definition valence_indicators : list pystr :=
  map utf8 [
    "feliz"; "alegre"; "bom"; "boa"; "satisfeito"; "satisfeita"; "alegria";
    "joy"; "happy"; "love"; "content"; "contente"; "bem"; "optimista"; "otimista";
    "grato"; "grata"; "sorridente"; "sorriso"; "entusiasmado"; "entusiasmada";
    "animado"; "animada"; "felicidade"; "prazer"; "diversão"; "brincar"
  ]%string.

(** The weight an indicator adds to [stress_count] when it is found. *)
Definition indicator_weight (w : pystr) : Z :=
  if str_mem w (map utf8 ["ataque de pânico"; "não aguento mais"; "no limite";
                          "desesperado"; "desesperada"]%string) then 4
  else if str_mem w (map utf8 ["exausto"; "exausta"; "esgotado"; "esgotada";
                               "sobrecarregado"; "sobrecarregada"]%string) then 3
  else if str_mem w (map utf8 ["ansiedade"; "pânico"; "angústia";
                               "nervousness"]%string) then 2
  else 1.

(** The loop [for w in stress_indicators: if w in lower: stress_count += ...] *)
Definition stress_count_of (lower : pystr) : Z :=
  fold_left (fun stress_count w =>
               if contains w lower then (stress_count + indicator_weight w)%Z
               else stress_count) stress_indicators 0%Z.

(** [sum(1 for w in valence_indicators if w in lower)] *)
Definition valence_count_of (lower : pystr) : Z :=
  fold_left (fun n w => if contains w lower then (n + 1)%Z else n)
            valence_indicators 0%Z.

Definition high_stress_phrases : list regex := [
  lit "estou" ++ [Spaces] ++ lit "muito" ++ [Spaces] ++ lit "stressado";
  lit "muitos" ++ [Spaces] ++ lit "exames";
  lit "muitos" ++ [Spaces] ++ lit "trabalhos";
  lit "sinto" ++ [AnyChar] ++ lit "me" ++ [Spaces] ++ lit "sobrecarregado";
  lit "sinto" ++ [AnyChar] ++ lit "me" ++ [Spaces] ++ lit "sobrecarregada";
  lit "sinto" ++ [AnyChar] ++ lit "me" ++ [Spaces] ++ lit "cansado";
  lit "sinto" ++ [AnyChar] ++ lit "me" ++ [Spaces] ++ lit "cansada";
  lit "não" ++ [Spaces] ++ lit "aguento" ++ [Spaces] ++ lit "mais";
  lit "estou" ++ [Spaces] ++ lit "no" ++ [Spaces] ++ lit "limite";
  lit "ataque" ++ [Spaces] ++ lit "de" ++ [Spaces] ++ lit "pânico";
  lit "não" ++ [Spaces] ++ lit "consigo" ++ [Spaces] ++ lit "respirar";
  lit "coração" ++ [Spaces] ++ lit "acelerado";
  lit "vou" ++ [Spaces] ++ lit "ter" ++ [Spaces] ++ lit "um" ++ [Spaces] ++ lit "ataque";
  lit "não" ++ [Spaces] ++ lit "vejo" ++ [Spaces] ++ lit "solução";
  lit "estou" ++ [Spaces] ++ lit "desesperado";
  lit "estou" ++ [Spaces] ++ lit "desesperada"
].

(** [any(re.search(phrase, lower) for phrase in high_stress_phrases)]:
    whether the loop over the phrases reaches its [break]. *)
Definition high_stress_phrase_found (lower : pystr) : bool :=
  existsb (fun phrase => re_search phrase lower) high_stress_phrases.

(** The stress value computed from the indicator count, before the phrase
    detector. *)
Definition counted_stress (stress_count : Z) (lower : pystr) : Q :=
  if (0 <? stress_count)%Z then
    let base_stress := 0.5 in
    let increment := 0.15 in
    let stress := Qmin 1 (base_stress + inject_Z stress_count * increment) in
    if (6 <=? stress_count)%Z then Qmin 1 (stress + 0.3)
    else if (4 <=? stress_count)%Z then Qmin 1 (stress + 0.2)
    else if (2 <=? stress_count)%Z then Qmin 1 (stress + 0.1)
    else stress
  else if any_in (map utf8 ["stress"; "ansiedade"; "preocupado";
                            "sobrecarregado"]%string) lower then 0.4
  else 0.

Definition counted_valence (valence_count : Z) : Q :=
  if (0 <? valence_count)%Z
  then Qmin 0.9 (0.3 + inject_Z valence_count * 0.1)
  else 0.

(** The value of [stress] after the phrase detector, before rounding. *)
Definition heuristic_stress (lower : pystr) : Q :=
  let stress := counted_stress (stress_count_of lower) lower in
  if high_stress_phrase_found lower then Qmax stress 0.7 else stress.

Definition heuristic_dominant (stress valence : Q) : pystr :=
  if Qgt_bool stress 0.7 then utf8 "alto_stress"
  else if Qgt_bool stress 0.4 then utf8 "stress"
  else if Qgt_bool stress valence then utf8 "stress_leve"
  else if Qgt_bool valence stress then utf8 "felicidade"
  else utf8 "neutro".

Definition _classify_heuristic (text : pystr) : Classification :=
  let lower := str_lower text in
  let stress := heuristic_stress lower in
  let valence := counted_valence (valence_count_of lower) in
  let dominant := heuristic_dominant stress valence in
  {| raw := [];
     emotion := {| stress_score := round2 stress;
                   valence := round2 valence;
                   dominant := Some dominant |} |}.

(** [classify(text)]: the result, the agent afterwards, and what was done
    to the outside world on the way. *)
Definition classify (transformers : transformers_import) (self : t)
    (text : option pystr) : Classification * t * list event :=
  let text := match text with Some (c :: s) => c :: s | _ => [] end in
  let self := set_use_hf self false in
  if _use_hf self && (5 <? len (strip text))%Z then
    let '(ready, self, evs) := _ensure_pipeline_initialized transformers self in
    match (if ready then pipeline self else None) with
    | Some p =>
      match _classify_with_hf p text with
      | inr hf_result =>
        if Qlt_bool (stress_score (emotion hf_result)) 0.3
        then (_classify_heuristic text, self, evs ++ [RunScorer text])
        else (hf_result, self, evs ++ [RunScorer text])
      | inl _ => (_classify_heuristic text, self, evs ++ [RunScorer text])
      end
    | None => (_classify_heuristic text, self, evs)
    end
  else (_classify_heuristic text, self, []).

End WithRuntime.

End EmotionAgent.

(* ------------------------------------------------------------------ *)
(** ** uninformed_search.py *)
(* ------------------------------------------------------------------ *)

(** [f"Slot {n}: {task}"] *)
Definition slot_label (n : nat) (task : pystr) : pystr :=
  utf8 "Slot " ++ str_of_nat n ++ utf8 ": " ++ task.

(** The [while queue and len(schedule) < available_slots] loop. *)
Fixpoint bfs_loop (queue schedule : list pystr) (available_slots : Z)
    : list pystr :=
  match queue with
  | [] => schedule
  | task :: queue' =>
    if (len schedule <? available_slots)%Z
    then bfs_loop queue'
           (schedule ++ [slot_label (List.length schedule + 1) task])
           available_slots
    else schedule
  end.

Definition bfs_schedule (tasks : list pystr) (available_slots : Z)
    : list pystr :=
  match tasks with
  | [] => []
  | _ :: _ =>
    if (available_slots =? 0)%Z then [] else bfs_loop tasks [] available_slots
  end.

Definition calculate_stress_slots (stress_level : Q) : Z :=
  if Qgt_bool stress_level 0.7 then 2
  else if Qgt_bool stress_level 0.4 then 3
  else 4.

(* ------------------------------------------------------------------ *)
(** ** agents/interface_agent.py *)
(* ------------------------------------------------------------------ *)

Module InterfaceAgent.

Record Slots := {
  sleep_hours : option Z;
  tasks : list pystr;
  deadline : option bool;
  explicit_emotion : option pystr
}.

(** The intent dictionary; [slots = None] is the empty dictionary [{}]
    of the coordinator's default intent. *)
Record Intent := {
  raw_text : pystr;
  slots : option Slots;
  confidence : Q
}.

Definition emotions_map : list (pystr * pystr) :=
  map (fun kv => (utf8 (fst kv), utf8 (snd kv))) [
    ("stress", "stress");
    ("stressado", "stress");
    ("ansioso", "ansiedade");
    ("ansiosa", "ansiedade");
    ("cansado", "cansaço");
    ("exausto", "exaustão");
    ("triste", "tristeza");
    ("feliz", "felicidade")
  ]%string.

(** The loop over [emotions_map.items()] with its [break]. *)
Fixpoint first_emotion (m : list (pystr * pystr)) (lower : pystr)
    : option pystr :=
  match m with
  | [] => None
  | (k, v) :: m' => if contains k lower then Some v else first_emotion m' lower
  end.

Section WithRuntime.
Context {R : PyRuntime}.

(** The longest run of decimal digits at the head of [s]: its value, how
    many digits it has, and what follows it. *)
Fixpoint span_digits (acc : Z) (n : nat) (s : pystr) : Z * nat * pystr :=
  match s with
  | [] => (acc, n, [])
  | c :: s' =>
    match decimal_value c with
    | Some d => span_digits (acc * 10 + d)%Z (S n) s'
    | None => (acc, n, s)
    end
  end.

(** A match of [(\d+)\s*(h|horas)] at the head of [s]: the value of the
    digits of the first group and their number. *)
Definition sleep_match_here (s : pystr) : option (Z * nat) :=
  let '(hours, n, rest) := span_digits 0 0 s in
  match n with
  | O => None
  | S _ =>
    match lstrip rest with
    | c :: _ => if (c =? 104)%N then Some (hours, n) else None
    | [] => None
    end
  end.

(** [re.search(r"(\d+)\s*(h|horas)", s)]: the leftmost match. *)
Fixpoint sleep_search (s : pystr) : option (Z * nat) :=
  match sleep_match_here s with
  | Some m => Some m
  | None =>
    match s with
    | [] => None
    | _ :: s' => sleep_search s'
    end
  end.

(** [int(digits)] for a string of [n] decimal digits of value [value]:
    [ValueError] when the interpreter limits the length and [n] exceeds
    the limit. *)
Definition int_of_digits (value : Z) (n : nat) : exn + Z :=
  if (0 <? int_max_str_digits)%Z && (int_max_str_digits <? Z.of_nat n)%Z
  then inl (ValueError
              (utf8 "Exceeds the limit (" ++ str_of_nat (Z.to_nat int_max_str_digits)
               ++ utf8 " digits) for integer string conversion: value has "
               ++ str_of_nat n
               ++ utf8 " digits; use sys.set_int_max_str_digits() to increase the limit"))
  else inr value.

Definition extract_intent (text : pystr) : exn + Intent :=
  let lower := str_lower text in
  match
    match sleep_search lower with
    | Some (value, n) =>
      match int_of_digits value n with
      | inr hours => inr (Some hours)
      | inl e => inl e
      end
    | None => inr None
    end
  with
  | inl e => inl e
  | inr sleep_hours =>
    let tasks1 :=
      if any_in (map utf8 ["estudar"; "tarefa"; "trabalho"; "projeto"]%string) lower
      then [utf8 "referência a estudo/trabalho"] else [] in
    let has_deadline := contains (utf8 "prazo") lower
                        || contains (utf8 "deadline") lower in
    let tasks2 :=
      if has_deadline then
        if negb (str_mem (utf8 "tem") tasks1)
        then tasks1 ++ [utf8 "tem prazos"] else tasks1
      else tasks1 in
    inr {| raw_text := text;
           slots := Some {| sleep_hours := sleep_hours;
                            tasks := tasks2;
                            deadline := if has_deadline then Some true else None;
                            explicit_emotion := first_emotion emotions_map lower |};
           confidence := 0.85 |}
  end.

End WithRuntime.

End InterfaceAgent.

(* ------------------------------------------------------------------ *)
(** ** agents/feedback_agent.py *)
(* ------------------------------------------------------------------ *)

(** JSON values, as [json.loads] builds them. *)
#[warnings="-register-all"]
Inductive json :=
| JNull
| JBool (b : bool)
| JNum (q : Q)
| JStr (s : pystr)
| JArr (items : list json)
| JObj (fields : list (pystr * json)).

(** The truth value of a Python object. *)
Definition truthy (v : json) : bool :=
  match v with
  | JNull => false
  | JBool b => b
  | JNum q => negb (Qeq_bool q 0)
  | JStr s => match s with [] => false | _ => true end
  | JArr l => match l with [] => false | _ => true end
  | JObj d => match d with [] => false | _ => true end
  end.

(** [d.get(key)] *)
Fixpoint dict_get (key : pystr) (d : list (pystr * json)) : option json :=
  match d with
  | [] => None
  | (k, v) :: d' => if str_eqb k key then Some v else dict_get key d'
  end.

(** The feedback dictionary. [extra] holds the keys of a remote reply
    other than the three the pipeline reads and writes. *)
Record Envelope := {
  recommendations : list json;
  follow_up_prompt : option json;
  source : pystr;
  extra : list (pystr * json)
}.

(** [result["source"] = s] *)
Definition set_source (result : Envelope) (s : pystr) : Envelope :=
  {| recommendations := recommendations result;
     follow_up_prompt := follow_up_prompt result;
     source := s;
     extra := extra result |}.

(** [{"type": ..., "text": ..., "why": ...}] *)
Definition recommendation (type text why : string) : json :=
  JObj [(utf8 "type", JStr (utf8 type));
        (utf8 "text", JStr (utf8 text));
        (utf8 "why", JStr (utf8 why))].

(** [str(n)] for an integer. *)
Definition str_of_Z (n : Z) : pystr :=
  utf8 (NilEmpty.string_of_int (Z.to_int n)).

Module FeedbackAgent.

(** The environment variables [__init__] reads; the numeric ones are given
    by the values [float] and [int] parse from them. *)
Record environ := {
  OPENROUTER_API_KEY : option pystr;
  OPENROUTER_MODEL : option pystr;
  OPENROUTER_URL : option pystr;
  OPENROUTER_TIMEOUT : option Q;
  OPENROUTER_RETRIES : option Z;
  OPENROUTER_BACKOFF : option Q
}.

Record t := {
  api_key : option pystr;
  model : pystr;
  base_url : pystr;
  request_timeout : Q;
  max_retries : Z;
  retry_backoff : Q;
  openrouter_available : bool
}.

Definition getenv {A} (v : option A) (default : A) : A :=
  match v with Some x => x | None => default end.

Definition __init__ (env : environ) : t :=
  {| api_key := OPENROUTER_API_KEY env;
     model := getenv (OPENROUTER_MODEL env)
                (utf8 "alibaba/tongyi-deepresearch-30b-a3b:free");
     base_url := getenv (OPENROUTER_URL env) (utf8 "https://openrouter.ai/api/v1");
     request_timeout := getenv (OPENROUTER_TIMEOUT env) 30.0;
     max_retries := getenv (OPENROUTER_RETRIES env) 3%Z;
     retry_backoff := getenv (OPENROUTER_BACKOFF env) 1.0;
     openrouter_available :=
       match OPENROUTER_API_KEY env with
       | Some (_ :: _) => true
       | _ => false
       end |}.

(** A reply of the remote service. [content] is what
    [_extract_content_from_response] finds in its body and [parsed] what
    [_parse_json_response] recovers from that content. *)
Record http_response := {
  status_code : Z;
  content : option pystr;
  parsed : option json
}.

(** One [client.post]: the call raises, or a reply comes back. *)
Inductive post_outcome :=
| PostRaises (e : exn)
| PostReturns (r : http_response).

(** The remote service: the outcome of the [k]-th request, [k] from 1. *)
Definition network := Z -> post_outcome.

(** What the agent does to the outside world. *)
Inductive event :=
| Post (attempt : Z)      (* one HTTP request *)
| Sleep (seconds : Q).    (* one [asyncio.sleep] *)

Definition is_reserved_key (k : pystr) : bool :=
  str_mem k (map utf8 ["recommendations"; "follow_up_prompt"; "source"]%string).

(** [_call_openrouter], from the outcome of its request on. *)
Definition _call_openrouter (outcome : post_outcome) : exn + Envelope :=
  match outcome with
  | PostRaises e => inl e
  | PostReturns response =>
    if negb (status_code response =? 200)%Z then
      if (status_code response =? 401)%Z
      then inl (Exception (utf8 "API key inválida ou não autorizada"))
      else if (status_code response =? 429)%Z
      then inl (Exception (utf8 "Rate limit excedido"))
      else inl (Exception (utf8 "Erro HTTP " ++ str_of_Z (status_code response)))
    else
      match content response with
      | None | Some [] =>
        inl (Exception (utf8 "Resposta da API vazia ou inválida"))
      | Some (_ :: _) =>
        match parsed response with
        | None => inl (Exception (utf8 "Resposta não contém JSON válido"))
        | Some result =>
          if negb (truthy result)
          then inl (Exception (utf8 "Resposta não contém JSON válido"))
          else
            match result with
            | JObj d =>
              match dict_get (utf8 "recommendations") d with
              | None => inl (Exception (utf8 "Estrutura de resposta inválida"))
              | Some (JArr (r :: rs)) =>
                inr {| recommendations := r :: rs;
                       follow_up_prompt := dict_get (utf8 "follow_up_prompt") d;
                       source := utf8 "openrouter";
                       extra := filter (fun kv => negb (is_reserved_key (fst kv))) d |}
              | Some _ => inl (Exception (utf8 "Recomendações inválidas"))
              end
            | _ => inl (Exception (utf8 "Formato de resposta inválido"))
            end
        end
      end
  end.

(** The body of [for attempt in range(attempt, self.max_retries + 1)],
    for the [n] attempts that are left. *)
Fixpoint retry_loop (self : t) (net : network) (n : nat) (attempt : Z)
    (last_exc : option exn) : (exn + Envelope) * list event :=
  match n with
  | O =>
    (inl (match last_exc with
          | Some e => e
          | None => Exception (utf8 "Unknown OpenRouter error")
          end), [])
  | S n' =>
    match _call_openrouter (net attempt) with
    | inr result => (inr result, [Post attempt])
    | inl e =>
      let backoff := retry_backoff self * inject_Z (2 ^ (attempt - 1)) in
      let slept := if (attempt <? max_retries self)%Z then [Sleep backoff] else [] in
      let '(r, evs) := retry_loop self net n' (attempt + 1)%Z (Some e) in
      (r, Post attempt :: slept ++ evs)
    end
  end.

Definition _call_openrouter_with_retries (self : t) (net : network)
    : (exn + Envelope) * list event :=
  retry_loop self net (Z.to_nat (max_retries self)) 1%Z None.

(** How the calling thread stands to [asyncio] when [craft_message] runs. *)
Inductive loop_context :=
| NoLoop                        (* [get_event_loop] raises [RuntimeError] *)
| LoopIdle                      (* a loop that is not running *)
| LoopRunning (in_time : bool). (* a running loop; whether the result
                                   arrives within the bounded wait *)

Section WithRuntime.
Context {R : PyRuntime}.

Definition _heuristic_feedback (emotion_summary : Emotion)
    (calendar_suggestions : list pystr) : Envelope :=
  let stress := stress_score emotion_summary in
  let valence := valence emotion_summary in
  let dominant :=
    str_lower (match dominant emotion_summary with
               | Some d => d
               | None => utf8 "None"
               end) in
  let recommendations :=
    if Qgt_bool stress 0.8 || contains (utf8 "ansiedade") dominant
       || contains (utf8 "panic") dominant then
      [recommendation "immediate"
         "TÉCNICA 5-4-3-2-1: Identifica 5 coisas que vês, 4 que tocas, 3 que ouves, 2 que cheiras, 1 que gostas"
         "Grounding sensorial reduz sintomas de ansiedade aguda";
       recommendation "short_term"
         "POMODORO: 25min estudo + 5min pausa ativa - 4 ciclos + pausa longa"
         "Intervalos regulares melhoram foco e reduzem exaustão mental";
       recommendation "professional"
         "Procura apoio psicológico universitário ou linha de crise local"
         "Apoio imediato previne escalada de crise emocional"]
    else if Qgt_bool stress 0.6 then
      [recommendation "immediate"
         "RESPIRAÇÃO 4-7-8: Inspira 4s, segura 7s, expira 8s (3 repetições)"
         "Respiração diafragmática ativa sistema parassimpático";
       recommendation "short_term"
         "Priorização por urgência e blocos de estudo"
         "Reduz sobrecarga decisória";
       recommendation "professional"
         "Marca consulta no Gabinete de Apoio ao Estudante"
         "Intervenção precoce ajuda"]
    else if Qgt_bool stress 0.4 then
      [recommendation "immediate"
         "PAUSA ATIVA: 5min a caminhar ou alongar"
         "Reduz tensão e aumenta circulação";
       recommendation "short_term"
         "Planeamento semanal com blocos de 2h"
         "Estrutura reduz incerteza";
       recommendation "professional"
         "Diário emocional: regista emoções e gatilhos"
         "Auto-monitorização desenvolve inteligência emocional"]
    else if Qlt_bool valence 0.3 then
      [recommendation "immediate"
         "MÚSICA + MOVIMENTO: 1 música que gostes + movimento breve"
         "Melhora humor e aumenta energia";
       recommendation "short_term"
         "Exposição à luz natural 15min/dia"
         "Regula ritmo circadiano e humor";
       recommendation "professional"
         "Conecta com alguém de confiança"
         "Apoio social protege bem-estar"]
    else
      [recommendation "immediate"
         "Aproveita estado de flow para tarefas que exigem foco"
         "Estados positivos potenciam performance";
       recommendation "short_term"
         "Técnica Feynman para consolidar conhecimento"
         "Aumenta retenção através da explicação ativa";
       recommendation "professional"
         "Explora workshops e iniciativas de desenvolvimento pessoal"
         "Engajamento em atividades promove bem-estar"] in
  let recommendations :=
    match calendar_suggestions with
    | [] => recommendations
    | _ :: _ =>
      let calendar_context := str_lower (join (utf8 " ") calendar_suggestions) in
      if any_in (map utf8 ["reunião"; "aula"; "evento"; "compromisso"]%string)
                calendar_context
         && Qgt_bool stress 0.5
      then recommendations ++
           [recommendation "short_term"
              "BLOCO DE TRANSIÇÃO: 15min entre compromissos para recuperação"
              "Previne acumulação de fadiga decisória"]
      else recommendations
    end in
  {| recommendations := firstn 3 recommendations;
     follow_up_prompt :=
       Some (JStr (utf8 "Como te sentes em relação a estas sugestões? Alguma faz particular sentido para ti?"));
     source := utf8 "heuristic_evidence_based";
     extra := [] |}.

Definition generate_feedback (self : t) (net : network)
    (emotion_summary : Emotion) (calendar_suggestions : list pystr)
    : Envelope * list event :=
  if openrouter_available self then
    match _call_openrouter_with_retries self net with
    | (inr result, evs) => (result, evs)
    | (inl _, evs) =>
      (_heuristic_feedback emotion_summary calendar_suggestions, evs)
    end
  else (_heuristic_feedback emotion_summary calendar_suggestions, []).

(** [craft_message]: the envelope returned and the requests and sleeps
    performed. Under a running loop whose result misses the bounded wait
    the coroutine still runs on that loop; its result is dropped. *)
Definition craft_message (self : t) (net : network) (ctx : loop_context)
    (emotion_summary : Emotion) (calendar_suggestions : list pystr)
    (user_text : pystr) : Envelope * list event :=
  if negb (openrouter_available self) then
    (set_source (_heuristic_feedback emotion_summary calendar_suggestions)
                (utf8 "heuristic_fallback"), [])
  else
    let coro := generate_feedback self net emotion_summary calendar_suggestions in
    match ctx with
    | LoopRunning false =>
      (set_source (_heuristic_feedback emotion_summary calendar_suggestions)
                  (utf8 "heuristic_fallback"), snd coro)
    | LoopRunning true | LoopIdle | NoLoop => coro
    end.

End WithRuntime.

End FeedbackAgent.

(* ------------------------------------------------------------------ *)
(** ** coordinator.py *)
(* ------------------------------------------------------------------ *)

(** An event dictionary of the calendar agent; times are seconds. *)
Record CalendarEvent := {
  subject : pystr;
  start : option Q;
  end_ : option Q;
  location : pystr;
  is_all_day : bool
}.

(** The response dictionary of [handle_text]. *)
Module Response.

Record Schedule := {
  schedule : list pystr;
  available_slots : option Z;
  total_tasks : option Z;
  notes : option pystr
}.

Record t := {
  emotion : Emotion;
  optimized_schedule : Schedule;
  events : list CalendarEvent;
  message : Envelope;
  raw_intent : option InterfaceAgent.Intent;
  raw_emotion : option EmotionAgent.Classification;
  success : bool
}.

End Response.

Module Coordinator.

(** The agents as the coordinator sees them: objects whose methods raise
    or return. [extract_intent] returning [None] is a result that is not a
    dictionary; [suggest_plan = None] is an agent without that attribute. *)
Record InterfaceAgentI := {
  extract_intent : pystr -> exn + option InterfaceAgent.Intent
}.

Record EmotionAgentI := {
  classify : pystr -> exn + EmotionAgent.Classification
}.

Record CalendarAgentI := {
  get_upcoming_events : Z -> exn + list CalendarEvent;
  suggest_plan :
    option (Emotion -> list CalendarEvent -> exn + list pystr)
}.

Record FeedbackAgentI := {
  craft_message : Emotion -> list pystr -> pystr -> exn + Envelope;
  _heuristic_feedback : Emotion -> list pystr -> exn + Envelope
}.

Record t := {
  interface : option InterfaceAgentI;
  emotion : option EmotionAgentI;
  calendar : option CalendarAgentI;
  feedback : option FeedbackAgentI
}.

(** The repository's own agents behind these interfaces. *)
Definition interface_agent {R : PyRuntime} : InterfaceAgentI :=
  {| extract_intent := fun text =>
       match InterfaceAgent.extract_intent text with
       | inr intent => inr (Some intent)
       | inl e => inl e
       end |}.

Definition emotion_agent {R : PyRuntime}
    (transformers : EmotionAgent.transformers_import) (a : EmotionAgent.t)
    : EmotionAgentI :=
  {| classify := fun text =>
       inr (fst (fst (EmotionAgent.classify transformers a (Some text)))) |}.

Definition feedback_agent {R : PyRuntime} (a : FeedbackAgent.t)
    (net : FeedbackAgent.network) (ctx : FeedbackAgent.loop_context)
    : FeedbackAgentI :=
  {| craft_message := fun emotion_summary calendar_suggestions user_text =>
       inr (fst (FeedbackAgent.craft_message a net ctx emotion_summary
                   calendar_suggestions user_text));
     _heuristic_feedback := fun emotion_summary calendar_suggestions =>
       inr (FeedbackAgent._heuristic_feedback emotion_summary
              calendar_suggestions) |}.

(** [_extract_emotion_scores]; [None] is the empty dictionary. *)
Definition _extract_emotion_scores
    (emo_obj : option EmotionAgent.Classification) : Emotion :=
  match emo_obj with
  | None => {| stress_score := 0.0; valence := 0.0; dominant := None |}
  | Some c =>
    let emo := EmotionAgent.emotion c in
    {| stress_score := stress_score emo;
       valence := valence emo;
       dominant := dominant emo |}
  end.

Definition default_response : Envelope :=
  {| recommendations :=
       [recommendation "immediate"
          "Faz uma pausa de 5 minutos e respira profundamente."
          "Pausas curtas ajudam a reduzir o stress e melhorar o foco.";
        recommendation "short_term"
          "Organiza as tuas tarefas por prioridade."
          "Priorização ajuda a gerir melhor o tempo e reduzir a ansiedade.";
        recommendation "professional"
          "Mantém um diário das tuas emoções e progresso."
          "Auto-reflexão promove bem-estar mental a longo prazo."];
     follow_up_prompt := Some (JStr (utf8 "Como te sentes após estas sugestões?"));
     source := utf8 "Heuristic";
     extra := [] |}.

Definition is_empty (s : pystr) : bool :=
  match s with [] => true | _ => false end.

(** The tasks taken from the intent slots:
    [[str(task) for task in slots["tasks"] if task]]. *)
Definition slot_tasks (slots : option InterfaceAgent.Slots) : list pystr :=
  match slots with
  | Some sl => filter (fun task => negb (is_empty task)) (InterfaceAgent.tasks sl)
  | None => []
  end.

Definition study_keywords : list pystr :=
  map utf8 ["estudar"; "estudo"; "revisar"; "ler"; "aprender"]%string.

Definition project_keywords : list pystr :=
  map utf8 ["projeto"; "trabalho"; "assignment"; "tarefa"]%string.

Definition exercise_keywords : list pystr :=
  map utf8 ["exercício"; "correr"; "ginásio"; "yoga"; "desporto"]%string.

Definition default_tasks : list pystr :=
  map utf8 ["Estudo"; "Revisão"; "Exercícios"; "Planeamento"]%string.

Section WithRuntime.
Context {R : PyRuntime}.

Definition _safe_generate_feedback (self : t) (emotion_summary : Emotion)
    (calendar_suggestions : list pystr) : Envelope :=
  match feedback self with
  | None => default_response
  | Some fb =>
    match craft_message fb emotion_summary calendar_suggestions [] with
    | inr result =>
      match recommendations result with
      | _ :: _ =>
        if contains (utf8 "openrouter") (str_lower (source result))
        then set_source result (utf8 "LLM (OpenRouter)")
        else set_source result (utf8 "LLM")
      | [] => default_response
      end
    | inl _ =>
      match _heuristic_feedback fb emotion_summary calendar_suggestions with
      | inr heuristic_result =>
        set_source heuristic_result (utf8 "Heuristic (Fallback)")
      | inl _ => default_response
      end
    end
  end.

Definition _extract_tasks_from_text (text : pystr)
    (slots : option InterfaceAgent.Slots) : list pystr :=
  let tasks := slot_tasks slots in
  let lower_text := str_lower text in
  let tasks :=
    if any_in study_keywords lower_text
    then tasks ++ [utf8 "Estudo/Revisão"] else tasks in
  let tasks :=
    if any_in project_keywords lower_text
    then tasks ++ [utf8 "Trabalho de Projeto"] else tasks in
  let tasks :=
    if any_in exercise_keywords lower_text
    then tasks ++ [utf8 "Exercício Físico"] else tasks in
  let tasks :=
    match tasks with
    | [] => default_tasks
    | _ :: _ => tasks
    end in
  firstn 4 tasks.

Definition _get_empty_response : Response.t :=
  {| Response.emotion :=
       {| stress_score := 0.0; valence := 0.0; dominant := Some (utf8 "unknown") |};
     Response.optimized_schedule :=
       {| Response.schedule := []; Response.available_slots := None;
          Response.total_tasks := None;
          Response.notes := Some (utf8 "No input provided") |};
     Response.events := [];
     Response.message :=
       {| recommendations := [];
          follow_up_prompt := Some (JStr (utf8 "Please provide some input."));
          source := utf8 "System";
          extra := [] |};
     Response.raw_intent := None;
     Response.raw_emotion := None;
     Response.success := false |}.

Definition _get_error_response (error_msg : pystr) : Response.t :=
  {| Response.emotion :=
       {| stress_score := 0.0; valence := 0.0; dominant := Some (utf8 "unknown") |};
     Response.optimized_schedule :=
       {| Response.schedule := []; Response.available_slots := None;
          Response.total_tasks := None;
          Response.notes := Some (utf8 "Error: " ++ error_msg) |};
     Response.events := [];
     Response.message :=
       {| recommendations :=
            [recommendation "immediate"
               "Ocorreu um erro. Por favor, tenta novamente."
               "Erro temporário do sistema"];
          follow_up_prompt :=
            Some (JStr (utf8 "Desculpa pelo inconveniente. Podes tentar novamente?"));
          source := utf8 "System";
          extra := [] |};
     Response.raw_intent := None;
     Response.raw_emotion := None;
     Response.success := false |}.

(** [not text or not text.strip()] *)
Definition is_blank (text : option pystr) : bool :=
  match text with
  | None => true
  | Some s => is_empty s || is_empty (strip s)
  end.

Definition default_intent (text : pystr) : InterfaceAgent.Intent :=
  {| InterfaceAgent.raw_text := text;
     InterfaceAgent.slots := None;
     InterfaceAgent.confidence := 0.0 |}.

(** The stages of [handle_text] after the intent is known. None of them
    lets an exception through. *)
Definition respond (self : t) (intent : InterfaceAgent.Intent) : Response.t :=
  let raw_text := InterfaceAgent.raw_text intent in
  let slots := InterfaceAgent.slots intent in
  let emo_raw :=
    match emotion self with
    | Some ea =>
      match classify ea raw_text with
      | inr c => Some c
      | inl _ => None
      end
    | None => None
    end in
  let emo := _extract_emotion_scores emo_raw in
  let stress_score := Qmax 0.0 (Qmin 1.0 (stress_score emo)) in
  let valence := Qmax 0.0 (Qmin 1.0 (valence emo)) in
  let events :=
    match calendar self with
    | Some ca =>
      match get_upcoming_events ca 3%Z with
      | inr evs => evs
      | inl _ => []
      end
    | None => []
    end in
  let tasks := _extract_tasks_from_text raw_text slots in
  let available_slots := calculate_stress_slots stress_score in
  let schedule := bfs_schedule tasks available_slots in
  let emotion_summary := Build_Emotion stress_score valence (dominant emo) in
  let calendar_suggestions :=
    match calendar self with
    | Some ca =>
      match suggest_plan ca with
      | Some plan =>
        match plan emotion_summary events with
        | inr suggestions => suggestions
        | inl _ => []
        end
      | None => []
      end
    | None => []
    end in
  let message_obj :=
    _safe_generate_feedback self emotion_summary calendar_suggestions in
  {| Response.emotion :=
       Build_Emotion (round3 stress_score) (round3 valence) (dominant emo);
     Response.optimized_schedule :=
       {| Response.schedule := schedule;
          Response.available_slots := Some available_slots;
          Response.total_tasks := Some (len tasks);
          Response.notes := None |};
     Response.events := firstn 5 events;
     Response.message := message_obj;
     Response.raw_intent := Some intent;
     Response.raw_emotion := emo_raw;
     Response.success := true |}.

(** The body of the outer [try] of [handle_text]: the only call made
    outside an inner [try] is [extract_intent]. *)
Definition handle_text_body (self : t) (text : pystr) : exn + Response.t :=
  match interface self with
  | Some ia =>
    match extract_intent ia text with
    | inl e => inl e
    | inr (Some intent_result) => inr (respond self intent_result)
    | inr None => inr (respond self (default_intent text))
    end
  | None => inr (respond self (default_intent text))
  end.

Definition handle_text (self : t) (text : option pystr) : Response.t :=
  if is_blank text then _get_empty_response
  else
    match handle_text_body self (match text with Some s => s | None => [] end) with
    | inr response => response
    | inl e => _get_error_response (exn_str e)
    end.

End WithRuntime.

End Coordinator.

(* ------------------------------------------------------------------ *)
(** ** streamlit_app.py: the badge shown next to the source *)
(* ------------------------------------------------------------------ *)

Module StreamlitApp.

Inductive badge :=
| LLMBadge          (* "Recomendações geradas por IA avançada" *)
| HeuristicBadge.   (* "Recomendações baseadas em evidências científicas" *)

(** [if 'LLM' in source or 'openrouter' in source.lower()] *)
Definition source_badge {R : PyRuntime} (source : pystr) : badge :=
  if contains (utf8 "LLM") source
     || contains (utf8 "openrouter") (str_lower source)
  then LLMBadge else HeuristicBadge.

End StreamlitApp.

(* ------------------------------------------------------------------ *)
(** ** Reference formulas of the specification *)
(* ------------------------------------------------------------------ *)

(** The flat bonus the specification attaches to an indicator count. *)
Definition spec_stress_bonus (count : Z) : Q :=
  if (6 <=? count)%Z then 0.3
  else if (4 <=? count)%Z then 0.2
  else if (2 <=? count)%Z then 0.1
  else 0.

(** "0.5 plus 0.15 per weighted indicator count, clamped to 1.0", then
    the flat bonus, "clamped to 1.0". *)
Definition spec_stress (count : Z) : Q :=
  Qmin 1 (Qmin 1 (0.5 + inject_Z count * 0.15) + spec_stress_bonus count).

(** "FIFO assignment, one task per slot": the slots of [tasks] in their
    order, numbered from [k]. *)
Fixpoint fifo_slots (k : nat) (tasks : list pystr) : list pystr :=
  match tasks with
  | [] => []
  | task :: rest => slot_label k task :: fifo_slots (S k) rest
  end.

(** Two traces of the feedback agent are the same when they make the same
    requests and sleep for equal times. *)
Definition event_eq (a b : FeedbackAgent.event) : Prop :=
  match a, b with
  | FeedbackAgent.Post i, FeedbackAgent.Post j => i = j
  | FeedbackAgent.Sleep x, FeedbackAgent.Sleep y => x == y
  | _, _ => False
  end.

(** "Exactly 3 attempts with inter-attempt delays of exactly 1.0s then
    2.0s, and no delay after the final attempt." *)
Definition spec_retry_trace : list FeedbackAgent.event :=
  [FeedbackAgent.Post 1; FeedbackAgent.Sleep 1.0;
   FeedbackAgent.Post 2; FeedbackAgent.Sleep 2.0;
   FeedbackAgent.Post 3].

(* ------------------------------------------------------------------ *)
(** ** Sample inputs *)
(* ------------------------------------------------------------------ *)

Module Samples.

(** An external scorer that answers every text with [fear] at 0.9. *)
Definition scorer_fear : EmotionAgent.HFPipeline :=
  fun _ => Some (EmotionAgent.ResList
                   [EmotionAgent.Entry {| label := Some (utf8 "fear");
                                          score := 0.9 |}]).

(** An agent configured with [use_hf = True] whose pipeline is built. *)
Definition agent_with_scorer : EmotionAgent.t :=
  {| EmotionAgent.model_name := None;
     EmotionAgent._use_hf := true;
     EmotionAgent.pipeline := Some scorer_fear;
     EmotionAgent._pipeline_initialized := true |}.

Definition text_exams : pystr :=
  utf8 "estou muito stressado, tenho muitos exames".

Definition text_fear : pystr := utf8 "tenho medo de tudo isto".

(** A text with a high-intensity phrase and no stress indicator. *)
Definition text_no_way_out : pystr := utf8 "não vejo solução".

End Samples.

Module FeedbackSamples.

Definition environ_with (key : option pystr) : FeedbackAgent.environ :=
  {| FeedbackAgent.OPENROUTER_API_KEY := key;
     FeedbackAgent.OPENROUTER_MODEL := None;
     FeedbackAgent.OPENROUTER_URL := None;
     FeedbackAgent.OPENROUTER_TIMEOUT := None;
     FeedbackAgent.OPENROUTER_RETRIES := None;
     FeedbackAgent.OPENROUTER_BACKOFF := None |}.

(** An agent built with no [OPENROUTER_API_KEY], and one built with a key;
    every other variable is unset, so the defaults apply. *)
Definition agent_no_token : FeedbackAgent.t :=
  FeedbackAgent.__init__ (environ_with None).

Definition agent_with_token : FeedbackAgent.t :=
  FeedbackAgent.__init__ (environ_with (Some (utf8 "sk-test"))).

(** A service that refuses every connection. *)
Definition net_down : FeedbackAgent.network :=
  fun _ => FeedbackAgent.PostRaises (RequestError (utf8 "connection refused")).

(** A service whose reply parses to an object with four recommendations. *)
Definition four_recommendations : list json :=
  [recommendation "immediate" "a" "w"; recommendation "short_term" "b" "x";
   recommendation "professional" "c" "y"; recommendation "immediate" "d" "z"].

Definition net_four : FeedbackAgent.network :=
  fun _ => FeedbackAgent.PostReturns
    {| FeedbackAgent.status_code := 200;
       FeedbackAgent.content := Some (utf8 "{...}");
       FeedbackAgent.parsed :=
         Some (JObj [(utf8 "recommendations", JArr four_recommendations)]) |}.

Definition calm : Emotion :=
  {| stress_score := 0; valence := 0; dominant := None |}.

(** A coordinator whose feedback agent has no token. *)
Definition coordinator_no_token : Coordinator.t :=
  {| Coordinator.interface := Some (@Coordinator.interface_agent latin1);
     Coordinator.emotion :=
       Some (@Coordinator.emotion_agent latin1 EmotionAgent.ImportFails
               (EmotionAgent.__init__ None None None));
     Coordinator.calendar := None;
     Coordinator.feedback :=
       Some (@Coordinator.feedback_agent latin1 agent_no_token net_down
               FeedbackAgent.NoLoop) |}.

(** A coordinator whose interface agent raises on every text. *)
Definition coordinator_faulty : Coordinator.t :=
  {| Coordinator.interface :=
       Some {| Coordinator.extract_intent :=
                 fun _ => inl (Exception (utf8 "boom")) |};
     Coordinator.emotion := None;
     Coordinator.calendar := None;
     Coordinator.feedback := None |}.

End FeedbackSamples.


(* ------------------------------------------------------------------ *)
(** ** Tables and measures used by the further properties *)
(* ------------------------------------------------------------------ *)

(** The stress of a text before rounding, as a table of the indicator
    count and the phrase detector. *)
Definition stress_table (count : Z) (phrase : bool) : Q :=
  if (count =? 0)%Z then (if phrase then 0.7 else 0)
  else if (count =? 1)%Z then (if phrase then 0.7 else 0.65)
  else if (count =? 2)%Z then 0.9
  else 1.

(** The dominant label of a text, as a table of the two counts and the
    phrase detector. *)
Definition dominant_table (count : Z) (phrase : bool) (valence_count : Z) : pystr :=
  if (2 <=? count)%Z then utf8 "alto_stress"
  else if (1 <=? count)%Z || phrase then utf8 "stress"
  else if (0 <? valence_count)%Z then utf8 "felicidade"
  else utf8 "neutro".

(** The slot budget that goes with each row of that table. *)
Definition slots_table (count : Z) (phrase : bool) : Z :=
  if (2 <=? count)%Z then 2
  else if (1 <=? count)%Z || phrase then 3
  else 4.

(** What [__init__] establishes and every method keeps: no pipeline is
    held before the lazy initialisation has run. *)
Definition lazy_invariant (self : EmotionAgent.t) : Prop :=
  EmotionAgent._pipeline_initialized self = false ->
  EmotionAgent.pipeline self = None.

(** The requests of a trace, the sleeps of a trace, and the time slept. *)
Fixpoint posts_of (evs : list FeedbackAgent.event) : list Z :=
  match evs with
  | [] => []
  | FeedbackAgent.Post k :: rest => k :: posts_of rest
  | FeedbackAgent.Sleep _ :: rest => posts_of rest
  end.

Fixpoint sleeps_of (evs : list FeedbackAgent.event) : list Q :=
  match evs with
  | [] => []
  | FeedbackAgent.Post _ :: rest => sleeps_of rest
  | FeedbackAgent.Sleep d :: rest => d :: sleeps_of rest
  end.

Definition total_sleep (evs : list FeedbackAgent.event) : Q :=
  fold_right Qplus 0 (sleeps_of evs).

(** [k] requests numbered from [attempt], with the delay
    [backoff * 2^(i-1)] after request [i] and none after the last. *)
Fixpoint attempts_trace (backoff : Q) (attempt : Z) (k : nat)
    : list FeedbackAgent.event :=
  match k with
  | O => []
  | S k' =>
    FeedbackAgent.Post attempt ::
    match k' with
    | O => []
    | S _ =>
      FeedbackAgent.Sleep (backoff * inject_Z (2 ^ (attempt - 1)))
      :: attempts_trace backoff (attempt + 1) k'
    end
  end.

(** An agent with a key and [OPENROUTER_RETRIES=0]. *)
Definition agent_no_retries : FeedbackAgent.t :=
  FeedbackAgent.__init__
    {| FeedbackAgent.OPENROUTER_API_KEY := Some (utf8 "sk-test");
       FeedbackAgent.OPENROUTER_MODEL := None;
       FeedbackAgent.OPENROUTER_URL := None;
       FeedbackAgent.OPENROUTER_TIMEOUT := None;
       FeedbackAgent.OPENROUTER_RETRIES := Some 0%Z;
       FeedbackAgent.OPENROUTER_BACKOFF := None |}.

(** [rec.get("type")] for a recommendation. *)
Definition recommendation_type (r : json) : option json :=
  match r with
  | JObj d => dict_get (utf8 "type") d
  | _ => None
  end.

(** A runtime whose [int] converts at most 3 digits, and a coordinator
    that has the repository's interface agent and nothing else. *)
Definition runtime_limit3 : PyRuntime :=
  {| str_lower := map latin1_lower_char;
     decimal_value := ascii_digit;
     int_max_str_digits := 3 |}.

Definition coordinator_interface_only (R : PyRuntime) : Coordinator.t :=
  {| Coordinator.interface := Some (@Coordinator.interface_agent R);
     Coordinator.emotion := None;
     Coordinator.calendar := None;
     Coordinator.feedback := None |}.

Definition text_study : pystr := utf8 "Tenho de estudar para o projeto".

(* ------------------------------------------------------------------ *)
(** ** safety.py *)
(* ------------------------------------------------------------------ *)

Definition RISK_KEYWORDS : list pystr :=
  map utf8 ["suicidio"; "matar-me"; "auto-mutililação"; "tirar a vida";
            "quero morrer"; "não aguento"]%string.

Definition check_risk {R : PyRuntime} (text : option pystr) : bool :=
  let t := str_lower (match text with Some (c :: s) => c :: s | _ => [] end) in
  any_in RISK_KEYWORDS t.

(* ================================================================== *)
(** * Part II. Properties *)
(* ================================================================== *)

(** ** Rationals: comparisons and rounding *)

(** Linear goals over rationals whose denominators are constants. *)
Ltac q_arith :=
  unfold Qle, Qlt, Qeq, Qdiv, Qminus, Qplus, Qmult, Qopp, Qinv, inject_Z in *;
  cbn [Qnum Qden] in *; lia.

Lemma Qgt_bool_true (x y : Q) : Qgt_bool x y = true <-> y < x.
Proof.
  unfold Qgt_bool. rewrite negb_true_iff. split; intro H.
  - apply Qnot_le_lt. intro L. apply Qle_bool_iff in L. congruence.
  - destruct (Qle_bool x y) eqn:E; [|reflexivity].
    apply Qle_bool_iff in E. exfalso. exact (Qlt_not_le _ _ H E).
Qed.

Lemma Qgt_bool_false (x y : Q) : Qgt_bool x y = false <-> x <= y.
Proof.
  unfold Qgt_bool. rewrite negb_false_iff. apply Qle_bool_iff.
Qed.

Lemma Qlt_bool_true (x y : Q) : Qlt_bool x y = true <-> x < y.
Proof. apply (Qgt_bool_true y x). Qed.

Lemma Qlt_bool_false (x y : Q) : Qlt_bool x y = false <-> y <= x.
Proof. apply (Qgt_bool_false y x). Qed.

Lemma round_half_even_comp (x y : Q) :
  x == y -> round_half_even x = round_half_even y.
Proof.
  intro E. unfold round_half_even, Qlt_bool.
  rewrite (Qfloor_comp _ _ E).
  assert (D : x - inject_Z (Qfloor y) == y - inject_Z (Qfloor y))
    by (rewrite E; reflexivity).
  rewrite (Qleb_comp _ _ (Qeq_refl (1 # 2)) _ _ D).
  rewrite (Qleb_comp _ _ D _ _ (Qeq_refl (1 # 2))).
  reflexivity.
Qed.

Lemma round_half_even_Z (z : Z) : round_half_even (inject_Z z) = z.
Proof.
  unfold round_half_even. rewrite Qfloor_Z.
  assert (D : inject_Z z - inject_Z z == 0) by ring.
  unfold Qlt_bool.
  rewrite (Qleb_comp _ _ (Qeq_refl (1 # 2)) _ _ D).
  reflexivity.
Qed.

(** Rounding keeps a value between two integers that bound it. *)
Lemma round_half_even_bounds (x : Q) (lo hi : Z) :
  inject_Z lo <= x -> x <= inject_Z hi ->
  (lo <= round_half_even x <= hi)%Z.
Proof.
  intros Hlo Hhi.
  assert (Flo : (lo <= Qfloor x)%Z).
  { rewrite <- (Qfloor_Z lo). apply Qfloor_resp_le. exact Hlo. }
  assert (Fhi : (Qfloor x <= hi)%Z).
  { rewrite <- (Qfloor_Z hi). apply Qfloor_resp_le. exact Hhi. }
  assert (Up : 0 < x - inject_Z (Qfloor x) -> (Qfloor x + 1 <= hi)%Z).
  { intro P.
    assert (L : inject_Z (Qfloor x) < inject_Z hi).
    { apply Qlt_le_trans with x; [|exact Hhi].
      apply (Qplus_lt_l _ _ (- inject_Z (Qfloor x))).
      setoid_replace (inject_Z (Qfloor x) + - inject_Z (Qfloor x)) with 0 by ring.
      exact P. }
    rewrite <- Zlt_Qlt in L. lia. }
  unfold round_half_even.
  destruct (Qlt_bool (x - inject_Z (Qfloor x)) (1 # 2)) eqn:A; [lia|].
  apply Qlt_bool_false in A.
  assert (P : 0 < x - inject_Z (Qfloor x)).
  { apply Qlt_le_trans with (1 # 2); [reflexivity | exact A]. }
  specialize (Up P).
  destruct (Qlt_bool (1 # 2) (x - inject_Z (Qfloor x))); [lia|].
  destruct (Z.even (Qfloor x)); lia.
Qed.

Lemma round2_comp (x y : Q) : x == y -> round2 x == round2 y.
Proof.
  intro E. unfold round2.
  rewrite (round_half_even_comp (x * 100) (y * 100)); [reflexivity|].
  rewrite E. reflexivity.
Qed.

Lemma hundredths_unit (z : Z) :
  (0 <= z <= 100)%Z -> 0 <= inject_Z z / 100 <= 1.
Proof.
  intros [B0 B1]. unfold Qdiv, Qmult, Qinv, Qle, inject_Z. simpl. lia.
Qed.

Lemma scale_unit (x : Q) :
  0 <= x <= 1 -> inject_Z 0 <= x * 100 /\ x * 100 <= inject_Z 100.
Proof.
  intros [H0 H1]. destruct x as [n d]. unfold Qle, Qmult, inject_Z in *.
  simpl in *. lia.
Qed.

Lemma round2_unit (x : Q) : 0 <= x <= 1 -> 0 <= round2 x <= 1.
Proof.
  intro H. unfold round2. apply hundredths_unit.
  destruct (scale_unit x H) as [L U].
  apply round_half_even_bounds; assumption.
Qed.

(** Rounding to two places leaves a whole number of hundredths alone. *)
Lemma round2_hundredths (x : Q) (z : Z) :
  x == inject_Z z / 100 -> round2 x == x.
Proof.
  intro E. unfold round2.
  rewrite (round_half_even_comp (x * 100) (inject_Z z)).
  - rewrite round_half_even_Z. symmetry. exact E.
  - rewrite E. field.
Qed.

(** ** The heuristic classifier *)

Section EmotionProperties.
Context {R : PyRuntime}.
Import EmotionAgent.

Lemma indicator_weight_pos (w : pystr) : (1 <= indicator_weight w)%Z.
Proof.
  unfold indicator_weight.
  repeat match goal with |- context [if ?b then _ else _] => destruct b end; lia.
Qed.

(** The counting loop over any indicator list: the count never goes
    down, and it goes up exactly when some indicator occurs. *)
Lemma stress_loop_spec (lower : pystr) (l : list pystr) : forall acc : Z,
  let r := fold_left (fun stress_count w =>
                        if contains w lower
                        then (stress_count + indicator_weight w)%Z
                        else stress_count) l acc in
  (acc <= r)%Z /\ (any_in l lower = true <-> (acc < r)%Z).
Proof.
  induction l as [|w l IH]; intro acc; simpl.
  - split; [lia|]. split; [discriminate | lia].
  - pose proof (indicator_weight_pos w) as P.
    destruct (contains w lower) eqn:C; simpl.
    + destruct (IH (acc + indicator_weight w)%Z) as [L _].
      split; [lia|]. split; [intros _; lia | reflexivity].
    + apply IH.
Qed.

Lemma stress_count_pos (lower : pystr) :
  any_in stress_indicators lower = true <-> (0 < stress_count_of lower)%Z.
Proof. apply (stress_loop_spec lower stress_indicators 0%Z). Qed.

Lemma stress_count_nonneg (lower : pystr) : (0 <= stress_count_of lower)%Z.
Proof. apply (stress_loop_spec lower stress_indicators 0%Z). Qed.

Lemma counted_stress_spec (n : Z) (lower : pystr) :
  (0 < n)%Z -> counted_stress n lower == spec_stress n.
Proof.
  intro P. unfold counted_stress, spec_stress, spec_stress_bonus.
  apply Z.ltb_lt in P. rewrite P.
  destruct (6 <=? n)%Z; [reflexivity|].
  destruct (4 <=? n)%Z; [reflexivity|].
  destruct (2 <=? n)%Z; [reflexivity|].
  cbv zeta. rewrite Qplus_0_r.
  symmetry. apply Q.min_r. apply Q.le_min_l.
Qed.

(** The three values the counted stress takes. *)
Lemma spec_stress_values (n : Z) :
  (0 < n)%Z ->
  spec_stress n ==
  (if (n =? 1)%Z then 0.65 else if (n =? 2)%Z then 0.9 else 1).
Proof.
  intro P.
  destruct (Z.eq_dec n 1) as [->|N1]; [reflexivity|].
  destruct (Z.eq_dec n 2) as [->|N2]; [reflexivity|].
  destruct (Z.eq_dec n 3) as [->|N3]; [reflexivity|].
  assert (G : (4 <= n)%Z) by lia.
  replace (n =? 1)%Z with false by (symmetry; apply Z.eqb_neq; lia).
  replace (n =? 2)%Z with false by (symmetry; apply Z.eqb_neq; lia).
  unfold spec_stress.
  assert (I : Qmin 1 (0.5 + inject_Z n * 0.15) == 1).
  { apply Q.min_l. q_arith. }
  rewrite I. apply Q.min_l.
  unfold spec_stress_bonus.
  destruct (6 <=? n)%Z; [discriminate|].
  destruct (4 <=? n)%Z; [discriminate|].
  destruct (2 <=? n)%Z; discriminate.
Qed.

Lemma clamp_unit (s b : Q) : 0 <= s -> 0 <= b -> 0 <= Qmin 1 (s + b) <= 1.
Proof.
  intros Hs Hb. split; [|apply Q.le_min_l].
  apply Q.min_glb; [discriminate|].
  rewrite <- (Qplus_0_r 0). apply Qplus_le_compat; assumption.
Qed.

Lemma counted_stress_unit (n : Z) (lower : pystr) :
  0 <= counted_stress n lower <= 1.
Proof.
  unfold counted_stress.
  destruct (0 <? n)%Z eqn:P.
  - apply Z.ltb_lt in P. cbv zeta.
    assert (B : 0 <= Qmin 1 (0.5 + inject_Z n * 0.15)).
    { apply Q.min_glb; [discriminate | q_arith]. }
    destruct (6 <=? n)%Z; [apply clamp_unit; [exact B | discriminate]|].
    destruct (4 <=? n)%Z; [apply clamp_unit; [exact B | discriminate]|].
    destruct (2 <=? n)%Z; [apply clamp_unit; [exact B | discriminate]|].
    split; [exact B | apply Q.le_min_l].
  - destruct (any_in _ lower); split; discriminate.
Qed.

Lemma heuristic_stress_unit (lower : pystr) : 0 <= heuristic_stress lower <= 1.
Proof.
  unfold heuristic_stress.
  pose proof (counted_stress_unit (stress_count_of lower) lower) as [L U].
  destruct (high_stress_phrase_found lower); [|split; assumption].
  split.
  - eapply Qle_trans; [exact L | apply Q.le_max_l].
  - apply Q.max_lub; [exact U | discriminate].
Qed.

Lemma counted_valence_unit (n : Z) : 0 <= counted_valence n <= 1.
Proof.
  unfold counted_valence.
  destruct (0 <? n)%Z eqn:P; [|split; discriminate].
  apply Z.ltb_lt in P. split.
  - apply Q.min_glb; [discriminate|].
    q_arith.
  - eapply Qle_trans; [apply Q.le_min_l | discriminate].
Qed.

(** [classify] clears [_use_hf] before it tests it, so the branch of the
    external scorer is never taken. *)
Lemma classify_unfold (transformers : transformers_import) (self : t)
    (text : option pystr) :
  classify transformers self text =
  (_classify_heuristic (match text with Some (c :: s) => c :: s | _ => [] end),
   set_use_hf self false, []).
Proof. reflexivity. Qed.

End EmotionProperties.

Section EmotionClaims.
Context {R : PyRuntime}.
Import EmotionAgent.

Lemma phrase_floor (lower : pystr) :
  high_stress_phrase_found lower = true -> 0.7 <= heuristic_stress lower.
Proof.
  intro F. unfold heuristic_stress. rewrite F. apply Q.le_max_r.
Qed.

(** The counted stress is a whole number of hundredths, and so is the
    stress after the phrase detector. *)
Lemma counted_stress_hundredths (lower : pystr) :
  exists z : Z,
    counted_stress (stress_count_of lower) lower == inject_Z z / 100.
Proof.
  destruct (Z_lt_le_dec 0 (stress_count_of lower)) as [P|NP].
  - pose proof (Qeq_trans _ _ _
                  (counted_stress_spec (stress_count_of lower) lower P)
                  (spec_stress_values (stress_count_of lower) P)) as E.
    destruct (stress_count_of lower =? 1)%Z;
      [|destruct (stress_count_of lower =? 2)%Z].
    + exists 65%Z. rewrite E. reflexivity.
    + exists 90%Z. rewrite E. reflexivity.
    + exists 100%Z. rewrite E. reflexivity.
  - unfold counted_stress.
    replace (0 <? stress_count_of lower)%Z with false
      by (symmetry; apply Z.ltb_ge; exact NP).
    destruct (any_in _ lower); [exists 40%Z | exists 0%Z]; reflexivity.
Qed.

Lemma heuristic_stress_hundredths (lower : pystr) :
  exists z : Z, heuristic_stress lower == inject_Z z / 100.
Proof.
  unfold heuristic_stress.
  destruct (counted_stress_hundredths lower) as [z Hz].
  destruct (high_stress_phrase_found lower); [|exists z; exact Hz].
  destruct (Q.max_spec (counted_stress (stress_count_of lower) lower) 0.7)
    as [[_ M]|[_ M]].
  - exists 70%Z. rewrite M. reflexivity.
  - exists z. rewrite M. exact Hz.
Qed.

(** Rounding leaves the heuristic stress as it is. *)
Lemma rounded_heuristic_stress (lower : pystr) :
  round2 (heuristic_stress lower) == heuristic_stress lower.
Proof.
  destruct (heuristic_stress_hundredths lower) as [z Hz].
  exact (round2_hundredths (heuristic_stress lower) z Hz).
Qed.

(** C4. For every input text, [None] and the empty string included,
    [classify] returns a classification (it is a total function: none of
    its paths raises) whose [stress_score] and [valence] both lie in the
    closed interval [0, 1]. *)
Theorem classify_scores_in_unit_interval
    (transformers : transformers_import) (self : t) (text : option pystr) :
  let c := fst (fst (classify transformers self text)) in
  (0 <= stress_score (emotion c) <= 1) /\ (0 <= valence (emotion c) <= 1).
Proof.
  rewrite classify_unfold. cbn [fst emotion _classify_heuristic stress_score valence].
  split; apply round2_unit.
  - apply heuristic_stress_unit.
  - apply counted_valence_unit.
Qed.

(** C5. On the heuristic path, whenever at least one stress indicator is
    found in the text, the weighted indicator count is positive and the
    computed stress equals 0.5 plus 0.15 per counted unit, clamped to 1.0,
    plus the flat bonus of its count (+0.3 from 6, +0.2 from 4, +0.1 from
    2), clamped to 1.0, and the returned score is that value or, on a
    phrase match, its maximum with 0.7. For every text, with or without an
    indicator, a match of a high-intensity phrase makes the returned score
    at least 0.7: it is the maximum of the computed stress and 0.7, a
    floor and not a term added; without a match the returned score is the
    computed stress. *)
Theorem heuristic_stress_formula (text : pystr) :
  let lower := str_lower text in
  let count := stress_count_of lower in
  let stress := stress_score (emotion (_classify_heuristic text)) in
  (any_in stress_indicators lower = true ->
   (0 < count)%Z /\
   counted_stress count lower == spec_stress count /\
   stress == (if high_stress_phrase_found lower
              then Qmax (spec_stress count) 0.7
              else spec_stress count)) /\
  (high_stress_phrase_found lower = true ->
   0.7 <= stress /\ stress == Qmax (counted_stress count lower) 0.7) /\
  (high_stress_phrase_found lower = false ->
   stress == counted_stress count lower).
Proof.
  intros lower count stress.
  assert (S : stress == heuristic_stress lower)
    by apply rounded_heuristic_stress.
  split; [|split].
  - intro Found.
    assert (P : (0 < count)%Z) by (apply stress_count_pos; exact Found).
    pose proof (counted_stress_spec count lower P) as E.
    split; [exact P|]. split; [exact E|].
    rewrite S. unfold heuristic_stress. fold count.
    destruct (high_stress_phrase_found lower); rewrite E; reflexivity.
  - intro F. split.
    + rewrite S. apply phrase_floor. exact F.
    + rewrite S. unfold heuristic_stress. fold count. rewrite F. reflexivity.
  - intro F. rewrite S. unfold heuristic_stress. fold count. rewrite F.
    reflexivity.
Qed.

(** C6, as the code has it. Whether or not an external scorer is
    configured, [classify] never invokes it: every call clears [_use_hf],
    imports nothing, builds nothing, runs no scorer, and returns the
    heuristic classification of the text. *)
Theorem classify_always_heuristic
    (transformers : transformers_import) (self : t) (text : option pystr) :
  let '(c, self', evs) := classify transformers self text in
  evs = [] /\
  _use_hf self' = false /\
  c = _classify_heuristic (match text with Some s => s | None => [] end).
Proof.
  rewrite classify_unfold.
  repeat split. destruct text as [[|ch s]|]; reflexivity.
Qed.

End EmotionClaims.

(** Two runs of C5. A text with four counted units, whose score is the
    clamped formula; and a text with no indicator at all and a
    high-intensity phrase, whose score is the floor of 0.7. *)
Lemma heuristic_stress_formula_witness :
  (any_in EmotionAgent.stress_indicators
          (@str_lower latin1 Samples.text_exams) = true /\
   EmotionAgent.stress_count_of (@str_lower latin1 Samples.text_exams) = 4%Z /\
   stress_score (EmotionAgent.emotion
                   (@EmotionAgent._classify_heuristic latin1 Samples.text_exams))
   == 1) /\
  (EmotionAgent.high_stress_phrase_found
     (@str_lower latin1 Samples.text_no_way_out) = true /\
   any_in EmotionAgent.stress_indicators
          (@str_lower latin1 Samples.text_no_way_out) = false /\
   EmotionAgent.stress_count_of (@str_lower latin1 Samples.text_no_way_out) = 0%Z /\
   stress_score (EmotionAgent.emotion
                   (@EmotionAgent._classify_heuristic latin1
                      Samples.text_no_way_out))
   == 0.7).
Proof.
  split.
  - split; [reflexivity|]. split; [reflexivity|].
    destruct (@heuristic_stress_formula latin1 Samples.text_exams)
      as (A & _ & _).
    destruct (A eq_refl) as (_ & _ & S).
    rewrite S. reflexivity.
  - split; [reflexivity|]. split; [reflexivity|]. split; [reflexivity|].
    destruct (@heuristic_stress_formula latin1 Samples.text_no_way_out)
      as (_ & B & _).
    destruct (B eq_refl) as (_ & S).
    rewrite S. reflexivity.
Defined.

(** C6 fails as stated: with [use_hf] enabled, a built scorer that would
    answer with stress 0.9, and a text longer than five characters,
    [classify] does not call the scorer and returns the heuristic result. *)
Lemma classify_skips_configured_scorer :
  EmotionAgent._use_hf Samples.agent_with_scorer = true /\
  (5 < len (strip Samples.text_fear))%Z /\
  (exists r,
      @EmotionAgent._classify_with_hf latin1 Samples.scorer_fear Samples.text_fear
      = inr r /\
      Qlt_bool (stress_score (EmotionAgent.emotion r)) 0.3 = false) /\
  ~ In (EmotionAgent.RunScorer Samples.text_fear)
       (snd (@EmotionAgent.classify latin1 EmotionAgent.ImportFails
               Samples.agent_with_scorer (Some Samples.text_fear))) /\
  fst (fst (@EmotionAgent.classify latin1 EmotionAgent.ImportFails
              Samples.agent_with_scorer (Some Samples.text_fear)))
  = @EmotionAgent._classify_heuristic latin1 Samples.text_fear.
Proof.
  split; [reflexivity|]. split; [reflexivity|]. split.
  - eexists. split; reflexivity.
  - split; [intros []|reflexivity].
Qed.

(** ** The slot allocator *)

Lemma fifo_slots_length (tasks : list pystr) : forall k,
  List.length (fifo_slots k tasks) = List.length tasks.
Proof.
  induction tasks as [|task rest IH]; intro k; simpl; [|rewrite IH]; reflexivity.
Qed.

Lemma fifo_slots_nth (tasks : list pystr) : forall k i task,
  nth_error tasks i = Some task ->
  nth_error (fifo_slots k tasks) i = Some (slot_label (k + i) task).
Proof.
  induction tasks as [|t rest IH]; intros k i task H.
  - destruct i; discriminate.
  - destruct i as [|i]; simpl in *.
    + injection H as ->. rewrite Nat.add_0_r. reflexivity.
    + rewrite (IH (S k) i task H). f_equal. f_equal. lia.
Qed.

Lemma firstn_nth (A : Type) (l : list A) : forall n i x,
  nth_error l i = Some x -> (i < n)%nat -> nth_error (firstn n l) i = Some x.
Proof.
  induction l as [|a l IH]; intros n i x H L.
  - destruct i; discriminate.
  - destruct n as [|n]; [lia|].
    destruct i as [|i]; simpl in *; [exact H|].
    apply IH; [exact H | lia].
Qed.

(** The loop appends to [schedule] the slots of the tasks it takes from
    the queue, and it takes as many as the budget still allows. *)
Lemma bfs_loop_spec (queue : list pystr) : forall schedule available_slots,
  bfs_loop queue schedule available_slots =
  schedule ++
  fifo_slots (List.length schedule + 1)
             (firstn (Z.to_nat (available_slots - len schedule)) queue).
Proof.
  induction queue as [|task queue IH]; intros schedule available_slots.
  - simpl. rewrite firstn_nil. simpl. rewrite app_nil_r. reflexivity.
  - simpl. destruct (len schedule <? available_slots)%Z eqn:E.
    + apply Z.ltb_lt in E. rewrite IH.
      unfold len in *. rewrite length_app. simpl.
      replace (Z.to_nat (available_slots - Z.of_nat (List.length schedule)))
        with (S (Z.to_nat (available_slots
                           - Z.of_nat (List.length schedule + 1)))) by lia.
      simpl. rewrite <- app_assoc. simpl.
      replace (S (List.length schedule + 1)) with (List.length schedule + 1 + 1)%nat
        by lia.
      reflexivity.
    + apply Z.ltb_ge in E.
      replace (Z.to_nat (available_slots - len schedule)) with O by lia.
      simpl. rewrite app_nil_r. reflexivity.
Qed.

Lemma bfs_schedule_spec (tasks : list pystr) (available_slots : Z) :
  bfs_schedule tasks available_slots =
  fifo_slots 1 (firstn (Z.to_nat available_slots) tasks).
Proof.
  unfold bfs_schedule. destruct tasks as [|task rest].
  - rewrite firstn_nil. reflexivity.
  - destruct (available_slots =? 0)%Z eqn:E.
    + apply Z.eqb_eq in E. subst. reflexivity.
    + rewrite bfs_loop_spec. simpl.
      rewrite Z.sub_0_r. reflexivity.
Qed.

(** C7. For every task list and every slot budget (a count, so not
    negative), the allocator returns the first [min(len(tasks), budget)]
    tasks, one per slot, in their original order: the schedule has that
    length and its [i]-th entry is the slot of the [i]-th task. With a
    budget of 0 or no task the schedule is empty. The allocator is a total
    function: it never fails. *)
Theorem bfs_schedule_fifo (tasks : list pystr) (available_slots : Z) :
  (0 <= available_slots)%Z ->
  let schedule := bfs_schedule tasks available_slots in
  len schedule = Z.min (len tasks) available_slots /\
  (forall i task,
      nth_error tasks i = Some task -> (Z.of_nat i < available_slots)%Z ->
      nth_error schedule i = Some (slot_label (i + 1) task)) /\
  (tasks = [] \/ available_slots = 0%Z -> schedule = []).
Proof.
  intros NN schedule. subst schedule. rewrite bfs_schedule_spec.
  split; [|split].
  - unfold len. rewrite fifo_slots_length, length_firstn. lia.
  - intros i task H L.
    rewrite (fifo_slots_nth _ 1 i task).
    + f_equal. f_equal. lia.
    + apply firstn_nth; [exact H | lia].
  - intros [-> | ->]; [rewrite firstn_nil|]; reflexivity.
Qed.

(** A run of C7: three tasks, a budget of two. *)
Lemma bfs_schedule_fifo_witness :
  (0 <= 2)%Z /\
  len (bfs_schedule [utf8 "a"; utf8 "b"; utf8 "c"] 2) = 2%Z /\
  nth_error (bfs_schedule [utf8 "a"; utf8 "b"; utf8 "c"] 2) 1
  = Some (utf8 "Slot 2: b").
Proof.
  assert (NN : (0 <= 2)%Z) by lia.
  destruct (bfs_schedule_fifo [utf8 "a"; utf8 "b"; utf8 "c"] 2 NN)
    as (L & N & _).
  split; [exact NN|]. split; [exact L|].
  exact (N 1%nat (utf8 "b") eq_refl eq_refl).
Defined.

(** ** Task extraction and the schedule of a response *)

Section TaskClaims.
Context {R : PyRuntime}.
Import Coordinator.

Lemma calculate_stress_slots_range (stress_level : Q) :
  (2 <= calculate_stress_slots stress_level <= 4)%Z.
Proof.
  unfold calculate_stress_slots.
  destruct (Qgt_bool stress_level 0.7); [lia|].
  destruct (Qgt_bool stress_level 0.4); lia.
Qed.

Lemma firstn_4_nonempty (A : Type) (l : list A) :
  l <> [] -> firstn 4 l <> [] /\ (1 <= len (firstn 4 l) <= 4)%Z.
Proof.
  intro N. destruct l as [|a l]; [contradiction|].
  split; [discriminate|].
  unfold len. rewrite length_firstn. simpl List.length. lia.
Qed.

Lemma bfs_schedule_nonempty (tasks : list pystr) (available_slots : Z) :
  tasks <> [] -> (1 <= available_slots)%Z ->
  bfs_schedule tasks available_slots <> [].
Proof.
  intros N P. rewrite bfs_schedule_spec.
  destruct tasks as [|task rest]; [contradiction|].
  destruct (Z.to_nat available_slots) eqn:E; [lia|]. discriminate.
Qed.

Lemma extract_tasks_nonempty (text : pystr) (slots : option InterfaceAgent.Slots) :
  _extract_tasks_from_text text slots <> [] /\
  (1 <= len (_extract_tasks_from_text text slots) <= 4)%Z.
Proof.
  unfold _extract_tasks_from_text. cbv zeta.
  apply firstn_4_nonempty.
  match goal with |- match ?l with _ => _ end <> _ => destruct l end;
    discriminate.
Qed.

(** C10. For every input text and every intent slots, task extraction
    returns a non-empty list of at most 4 tasks; when neither the slots
    nor the keyword scan give a task, it is the fixed default list of 4
    tasks. The slot budget is at least 2 for every stress level, so the
    schedule the allocator builds from those tasks is non-empty, and so is
    the schedule of every response that [handle_text] assembles from an
    intent. *)
Theorem tasks_and_schedule_nonempty (text : pystr)
    (slots : option InterfaceAgent.Slots) (stress_level : Q) :
  let tasks := _extract_tasks_from_text text slots in
  let available_slots := calculate_stress_slots stress_level in
  tasks <> [] /\
  (1 <= len tasks <= 4)%Z /\
  (slot_tasks slots = [] ->
   any_in study_keywords (str_lower text) = false ->
   any_in project_keywords (str_lower text) = false ->
   any_in exercise_keywords (str_lower text) = false ->
   tasks = default_tasks /\ len tasks = 4%Z) /\
  (2 <= available_slots)%Z /\
  bfs_schedule tasks available_slots <> [] /\
  (forall self intent,
      Response.schedule (Response.optimized_schedule (respond self intent))
      <> []).
Proof.
  intros tasks available_slots.
  destruct (extract_tasks_nonempty text slots) as [N L].
  pose proof (calculate_stress_slots_range stress_level) as B.
  split; [exact N|]. split; [exact L|]. split; [|split; [|split]].
  - intros S K1 K2 K3. subst tasks. unfold _extract_tasks_from_text.
    rewrite S, K1, K2, K3. split; reflexivity.
  - subst available_slots. lia.
  - apply bfs_schedule_nonempty; [exact N | subst available_slots; lia].
  - intros self intent. unfold respond. cbv zeta.
    cbn [Response.schedule Response.optimized_schedule].
    apply bfs_schedule_nonempty; [apply extract_tasks_nonempty|].
    match goal with
    | |- (1 <= calculate_stress_slots ?s)%Z =>
      pose proof (calculate_stress_slots_range s)
    end. lia.
Qed.

End TaskClaims.

(** ** The feedback synthesiser *)

Section FeedbackProperties.
Context {R : PyRuntime}.
Import FeedbackAgent.

Lemma heuristic_recommendations_length (emotion_summary : Emotion)
    (calendar_suggestions : list pystr) :
  List.length (recommendations
                 (_heuristic_feedback emotion_summary calendar_suggestions))
  = 3%nat.
Proof.
  unfold _heuristic_feedback. cbv zeta. cbn [recommendations].
  rewrite length_firstn.
  repeat match goal with
         | |- context [if ?b then _ else _] => destruct b
         | |- context [match ?l with [] => _ | _ :: _ => _ end] => destruct l
         end; reflexivity.
Qed.

Lemma craft_message_unavailable (self : t) (net : network) (ctx : loop_context)
    (emotion_summary : Emotion) (calendar_suggestions : list pystr)
    (user_text : pystr) :
  openrouter_available self = false ->
  craft_message self net ctx emotion_summary calendar_suggestions user_text =
  (set_source (_heuristic_feedback emotion_summary calendar_suggestions)
              (utf8 "heuristic_fallback"), []).
Proof. intro U. unfold craft_message. rewrite U. reflexivity. Qed.

Lemma init_without_token (env : environ) :
  OPENROUTER_API_KEY env = None \/ OPENROUTER_API_KEY env = Some [] ->
  openrouter_available (__init__ env) = false.
Proof. intros [E|E]; unfold __init__; simpl; rewrite E; reflexivity. Qed.

(** C3. If no API token is configured (the variable is unset or empty),
    then for every emotion summary and every list of calendar suggestions
    (and whatever the remote service or the event loop would do) the
    synchronous [craft_message] returns the heuristic recommendations
    tagged with the heuristic source and performs no request and no sleep. *)
Theorem craft_message_without_token (env : environ) (net : network)
    (ctx : loop_context) (emotion_summary : Emotion)
    (calendar_suggestions : list pystr) (user_text : pystr) :
  OPENROUTER_API_KEY env = None \/ OPENROUTER_API_KEY env = Some [] ->
  let '(result, evs) :=
    craft_message (__init__ env) net ctx emotion_summary calendar_suggestions
                  user_text in
  evs = [] /\
  source result = utf8 "heuristic_fallback" /\
  recommendations result =
  recommendations (_heuristic_feedback emotion_summary calendar_suggestions).
Proof.
  intro NoKey.
  rewrite (craft_message_unavailable _ net ctx emotion_summary
             calendar_suggestions user_text (init_without_token env NoKey)).
  repeat split.
Qed.

(** C8. With [max_retries = 3] and [retry_backoff = 1.0] the retry loop
    makes at most 3 requests and stops at the first that succeeds; what it
    has done at that point is an initial part of: request 1, sleep 1.0s,
    request 2, sleep 2.0s, request 3, ending on a request. When every
    request fails it is exactly that sequence: 3 attempts, delays of 1.0s
    then 2.0s between them (the delay after attempt [k] is
    [1.0 * 2^(k-1)]), no delay after the last, and the last error is
    raised. *)
Theorem retry_schedule (self : t) (net : network) :
  max_retries self = 3%Z ->
  retry_backoff self == 1.0 ->
  let '(result, evs) := _call_openrouter_with_retries self net in
  (exists n, (1 <= n <= 3)%nat /\
             Forall2 event_eq evs (firstn (2 * n - 1) spec_retry_trace)) /\
  ((forall k, (1 <= k <= 3)%Z -> exists e, _call_openrouter (net k) = inl e) ->
   Forall2 event_eq evs spec_retry_trace /\
   exists e, result = inl e /\ _call_openrouter (net 3%Z) = inl e).
Proof.
  intros M B. unfold _call_openrouter_with_retries. rewrite M.
  change (Z.to_nat 3) with 3%nat. cbn [retry_loop]. rewrite M.
  assert (D1 : retry_backoff self * inject_Z (2 ^ (1 - 1)) == 1.0)
    by (rewrite B; reflexivity).
  assert (D2 : retry_backoff self * inject_Z (2 ^ (1 + 1 - 1)) == 2.0)
    by (rewrite B; reflexivity).
  destruct (_call_openrouter (net 1%Z)) as [e1|r1] eqn:A1.
  2:{ split.
      - exists 1%nat. split; [lia|]. repeat constructor.
      - intro F. destruct (F 1%Z ltac:(lia)) as [e E]. congruence. }
  destruct (_call_openrouter (net (1 + 1)%Z)) as [e2|r2] eqn:A2.
  2:{ split.
      - exists 2%nat. split; [lia|]. repeat constructor. exact D1.
      - intro F. destruct (F 2%Z ltac:(lia)) as [e E].
        change (1 + 1)%Z with 2%Z in A2. congruence. }
  destruct (_call_openrouter (net (1 + 1 + 1)%Z)) as [e3|r3] eqn:A3.
  2:{ split.
      - exists 3%nat. split; [lia|]. repeat constructor; assumption.
      - intro F. destruct (F 3%Z ltac:(lia)) as [e E].
        change (1 + 1 + 1)%Z with 3%Z in A3. congruence. }
  split.
  - exists 3%nat. split; [lia|]. repeat constructor; assumption.
  - intros _. split; [repeat constructor; assumption|].
    exists e3. split; [reflexivity | exact A3].
Qed.

End FeedbackProperties.

(** A run of C3: the agent built from an environment without a key. *)
Lemma craft_message_without_token_witness :
  FeedbackAgent.OPENROUTER_API_KEY (FeedbackSamples.environ_with None) = None /\
  snd (@FeedbackAgent.craft_message latin1 FeedbackSamples.agent_no_token
         FeedbackSamples.net_four FeedbackAgent.LoopIdle FeedbackSamples.calm
         [] []) = [] /\
  source (fst (@FeedbackAgent.craft_message latin1 FeedbackSamples.agent_no_token
                 FeedbackSamples.net_four FeedbackAgent.LoopIdle
                 FeedbackSamples.calm [] []))
  = utf8 "heuristic_fallback".
Proof.
  split; [reflexivity|].
  pose proof (@craft_message_without_token latin1
                (FeedbackSamples.environ_with None) FeedbackSamples.net_four
                FeedbackAgent.LoopIdle FeedbackSamples.calm [] []
                (or_introl eq_refl)) as W.
  unfold FeedbackSamples.agent_no_token.
  destruct (@FeedbackAgent.craft_message latin1
              (FeedbackAgent.__init__ (FeedbackSamples.environ_with None))
              FeedbackSamples.net_four FeedbackAgent.LoopIdle
              FeedbackSamples.calm [] []) as [result evs].
  destruct W as (E & S & _). split; [exact E | exact S].
Defined.

(** A run of C8: the default agent against a service that is down. *)
Lemma retry_schedule_witness :
  FeedbackAgent.max_retries FeedbackSamples.agent_with_token = 3%Z /\
  FeedbackAgent.retry_backoff FeedbackSamples.agent_with_token == 1.0 /\
  Forall2 event_eq
    (snd (FeedbackAgent._call_openrouter_with_retries
            FeedbackSamples.agent_with_token FeedbackSamples.net_down))
    spec_retry_trace.
Proof.
  split; [reflexivity|]. split; [reflexivity|].
  pose proof (retry_schedule FeedbackSamples.agent_with_token
                FeedbackSamples.net_down eq_refl (Qeq_refl _)) as W.
  destruct (FeedbackAgent._call_openrouter_with_retries
              FeedbackSamples.agent_with_token FeedbackSamples.net_down)
    as [result evs].
  destruct W as [_ W].
  apply W. intros k _. eexists. reflexivity.
Defined.

(** ** The coordinator *)

Section CoordinatorProperties.
Context {R : PyRuntime}.
Import Coordinator.

(** Whatever [str.lower] does to the source, the coordinator relabels an
    envelope that has recommendations with one of its two LLM labels. *)
Lemma safe_generate_feedback_relabels (self : t) (fb : FeedbackAgentI)
    (emotion_summary : Emotion) (calendar_suggestions : list pystr)
    (result : Envelope) :
  feedback self = Some fb ->
  craft_message fb emotion_summary calendar_suggestions [] = inr result ->
  recommendations result <> [] ->
  let message := _safe_generate_feedback self emotion_summary calendar_suggestions in
  recommendations message = recommendations result /\
  (source message = utf8 "LLM" \/ source message = utf8 "LLM (OpenRouter)") /\
  StreamlitApp.source_badge (source message) = StreamlitApp.LLMBadge.
Proof.
  intros F C N. unfold _safe_generate_feedback. rewrite F, C.
  destruct (recommendations result) as [|r rs] eqn:E; [contradiction|].
  destruct (contains (utf8 "openrouter") (str_lower (source result)));
    cbn [set_source recommendations source]; rewrite E;
    (split; [reflexivity|]); (split; [auto|]); reflexivity.
Qed.

Lemma respond_success (self : t) (intent : InterfaceAgent.Intent) :
  Response.success (respond self intent) = true.
Proof. reflexivity. Qed.

(** The outer [try] of [handle_text] fails exactly when [extract_intent]
    raises. *)
Lemma handle_text_body_fault (self : t) (s : pystr) (e : exn) :
  handle_text_body self s = inl e <->
  exists ia, interface self = Some ia /\ extract_intent ia s = inl e.
Proof.
  unfold handle_text_body. split.
  - destruct (interface self) as [ia|]; [|discriminate].
    destruct (extract_intent ia s) as [e'|[i|]] eqn:E; try discriminate.
    intro H. injection H as ->. exists ia. split; [reflexivity | exact E].
  - intros (ia & I & E). rewrite I, E. reflexivity.
Qed.

Lemma handle_text_body_success (self : t) (s : pystr) (response : Response.t) :
  handle_text_body self s = inr response -> Response.success response = true.
Proof.
  unfold handle_text_body.
  destruct (interface self) as [ia|].
  - destruct (extract_intent ia s) as [e|[i|]]; try discriminate;
      intro H; injection H as <-; apply respond_success.
  - intro H; injection H as <-; apply respond_success.
Qed.

(** C9. [handle_text] returns [success = False] in exactly two cases:
    the input is empty or blank, and the response is the minimal one with
    no recommendation; or an exception escapes the stages of the
    orchestration, and the response carries the single apology
    recommendation with source [System]. On every other path, degraded or
    not, [success] is [True]. *)
Theorem handle_text_success_cases (self : t) (text : option pystr) :
  let response := handle_text self text in
  (Response.success response = false <->
   is_blank text = true \/
   exists s e, text = Some s /\ handle_text_body self s = inl e) /\
  (is_blank text = true ->
   response = _get_empty_response /\
   recommendations (Response.message response) = []) /\
  (forall s e,
      text = Some s -> is_blank text = false ->
      handle_text_body self s = inl e ->
      response = _get_error_response (exn_str e) /\
      recommendations (Response.message response) =
      [recommendation "immediate"
         "Ocorreu um erro. Por favor, tenta novamente."
         "Erro temporário do sistema"] /\
      source (Response.message response) = utf8 "System") /\
  (forall s r,
      text = Some s -> is_blank text = false ->
      handle_text_body self s = inr r ->
      response = r /\ Response.success response = true).
Proof.
  intro response. subst response. unfold handle_text.
  destruct (is_blank text) eqn:B.
  - split; [|split; [|split]].
    + split; [intros _; left; reflexivity | reflexivity].
    + intros _. split; reflexivity.
    + intros s e _ H. discriminate.
    + intros s r _ H. discriminate.
  - destruct text as [s|]; [|discriminate].
    destruct (handle_text_body self s) as [e|r] eqn:H.
    + split; [|split; [|split]].
      * split; [intros _; right; exists s, e; split; [reflexivity | exact H]
               | reflexivity].
      * discriminate.
      * intros s' e' E _ H'. injection E as <-. rewrite H in H'.
        injection H' as <-. repeat split.
      * intros s' r E _ H'. injection E as <-. rewrite H in H'. discriminate.
    + pose proof (handle_text_body_success self s r H) as S.
      split; [|split; [|split]].
      * split.
        -- intro F. rewrite S in F. discriminate.
        -- intros [F|(s' & e & E & H')]; [discriminate|].
           injection E as <-. rewrite H in H'. discriminate.
      * discriminate.
      * intros s' e E _ H'. injection E as <-. rewrite H in H'. discriminate.
      * intros s' r' E _ H'. injection E as <-. rewrite H in H'.
        injection H' as <-. split; [reflexivity | exact S].
Qed.

End CoordinatorProperties.

(** C1 on the code. A feedback agent without a token makes no request and
    returns the heuristic recommendations, which [craft_message] tags
    [heuristic_fallback]; the coordinator then relabels that envelope
    [LLM], and the interface shows it with the LLM badge. The same happens
    when a token is configured and all three requests fail. *)
Theorem heuristic_fallback_labelled_llm :
  let heuristic :=
    @FeedbackAgent._heuristic_feedback latin1 FeedbackSamples.calm [] in
  @FeedbackAgent.craft_message latin1 FeedbackSamples.agent_no_token
    FeedbackSamples.net_down FeedbackAgent.NoLoop FeedbackSamples.calm [] []
  = (set_source heuristic (utf8 "heuristic_fallback"), []) /\
  (let message :=
     @Coordinator._safe_generate_feedback latin1
       FeedbackSamples.coordinator_no_token FeedbackSamples.calm [] in
   recommendations message = recommendations heuristic /\
   source message = utf8 "LLM" /\
   @StreamlitApp.source_badge latin1 (source message) = StreamlitApp.LLMBadge) /\
  (let down :=
     {| Coordinator.interface := None; Coordinator.emotion := None;
        Coordinator.calendar := None;
        Coordinator.feedback :=
          Some (@Coordinator.feedback_agent latin1
                  FeedbackSamples.agent_with_token FeedbackSamples.net_down
                  FeedbackAgent.LoopIdle) |} in
   let message :=
     @Coordinator._safe_generate_feedback latin1 down FeedbackSamples.calm [] in
   fst (FeedbackAgent._call_openrouter_with_retries
          FeedbackSamples.agent_with_token FeedbackSamples.net_down)
   = inl (RequestError (utf8 "connection refused")) /\
   recommendations message = recommendations heuristic /\
   source message = utf8 "LLM").
Proof. vm_compute. repeat split. Qed.

(** C2 on the code. The heuristic generator returns exactly three
    recommendations, but a remote reply that passes validation is returned
    as it came: from a reply carrying four recommendations,
    [craft_message] returns all four, tagged [openrouter]. *)
Theorem remote_recommendations_not_truncated :
  (forall (R : PyRuntime) emotion_summary calendar_suggestions,
      (len (recommendations
              (FeedbackAgent._heuristic_feedback emotion_summary
                 calendar_suggestions)) <= 3)%Z) /\
  (let '(result, evs) :=
     @FeedbackAgent.craft_message latin1 FeedbackSamples.agent_with_token
       FeedbackSamples.net_four FeedbackAgent.LoopIdle FeedbackSamples.calm
       [] [] in
   evs = [FeedbackAgent.Post 1] /\
   source result = utf8 "openrouter" /\
   recommendations result = FeedbackSamples.four_recommendations /\
   len (recommendations result) = 4%Z).
Proof.
  split.
  - intros R es cal. unfold len.
    rewrite heuristic_recommendations_length. lia.
  - vm_compute. repeat split.
Qed.

(** ** The model on the examples of the specification *)

Example slots_for_stress :
  calculate_stress_slots 0.8 = 2%Z /\ calculate_stress_slots 0.5 = 3%Z /\
  calculate_stress_slots 0.1 = 4%Z.
Proof. repeat split. Qed.

Example classify_exams :
  let c := @EmotionAgent._classify_heuristic latin1 Samples.text_exams in
  stress_score (EmotionAgent.emotion c) == 1 /\
  valence (EmotionAgent.emotion c) == 0 /\
  dominant (EmotionAgent.emotion c) = Some (utf8 "alto_stress").
Proof. vm_compute. repeat split. Qed.

Example handle_text_exams :
  let response :=
    @Coordinator.handle_text latin1 FeedbackSamples.coordinator_no_token
      (Some Samples.text_exams) in
  Response.success response = true /\
  Response.schedule (Response.optimized_schedule response)
  = [utf8 "Slot 1: Estudo"; utf8 "Slot 2: Revisão"] /\
  Response.available_slots (Response.optimized_schedule response) = Some 2%Z /\
  Response.total_tasks (Response.optimized_schedule response) = Some 4%Z.
Proof. vm_compute. repeat split. Qed.

Example handle_text_blank :
  @Coordinator.handle_text latin1 FeedbackSamples.coordinator_no_token
    (Some (utf8 "   ")) = Coordinator._get_empty_response /\
  @Coordinator.handle_text latin1 FeedbackSamples.coordinator_no_token None
  = Coordinator._get_empty_response.
Proof. split; reflexivity. Qed.

Example handle_text_fault :
  @Coordinator.handle_text latin1 FeedbackSamples.coordinator_faulty
    (Some Samples.text_exams)
  = Coordinator._get_error_response (utf8 "boom").
Proof. reflexivity. Qed.

Example extract_intent_sleep_and_deadline :
  match @InterfaceAgent.extract_intent latin1
          (utf8 "Dormi 6 horas e tenho um prazo amanhã") with
  | inr intent =>
    InterfaceAgent.slots intent =
    Some {| InterfaceAgent.sleep_hours := Some 6%Z;
            InterfaceAgent.tasks := [utf8 "tem prazos"];
            InterfaceAgent.deadline := Some true;
            InterfaceAgent.explicit_emotion := None |}
  | inl _ => False
  end.
Proof. vm_compute. reflexivity. Qed.

(** With the repository's own interface agent the fault path is reached
    by a run of more digits than [int] converts, followed by [h]. *)
Example handle_text_digit_limit :
  let response :=
    @Coordinator.handle_text latin1 FeedbackSamples.coordinator_no_token
      (Some (repeat 57%N 4301 ++ utf8 "h")) in
  Response.success response = false /\
  source (Response.message response) = utf8 "System" /\
  Response.notes (Response.optimized_schedule response) =
  Some (utf8 "Error: Exceeds the limit (4300 digits) for integer string conversion: value has 4301 digits; use sys.set_int_max_str_digits() to increase the limit").
Proof. vm_compute. repeat split. Qed.

(* ================================================================== *)
(** * Part III. Further properties of the code *)
(* ================================================================== *)

(** ** Strings *)

Lemma str_eqb_eq (a : pystr) : forall b, str_eqb a b = true <-> a = b.
Proof.
  induction a as [|x a IH]; intros [|y b]; simpl; split; intro H;
    try reflexivity; try discriminate.
  - apply andb_true_iff in H. destruct H as [E H].
    apply N.eqb_eq in E. apply IH in H. subst. reflexivity.
  - injection H as -> ->. rewrite N.eqb_refl. simpl. apply IH. reflexivity.
Qed.

Lemma str_mem_In (w : pystr) (ws : list pystr) :
  str_mem w ws = true <-> In w ws.
Proof.
  unfold str_mem. rewrite existsb_exists. split.
  - intros (x & I & E). apply str_eqb_eq in E. subst. exact I.
  - intro I. exists w. split; [exact I | apply str_eqb_eq; reflexivity].
Qed.

(** A word found among [ws] is found among any list that holds [ws]. *)
Lemma any_in_incl (ws ws' : list pystr) (s : pystr) :
  (forall w, In w ws -> In w ws') ->
  any_in ws s = true -> any_in ws' s = true.
Proof.
  unfold any_in. intros I H. apply existsb_exists in H.
  destruct H as (w & Hw & C). apply existsb_exists.
  exists w. split; [apply I; exact Hw | exact C].
Qed.

Lemma any_in_false_incl (ws ws' : list pystr) (s : pystr) :
  (forall w, In w ws -> In w ws') ->
  any_in ws' s = false -> any_in ws s = false.
Proof.
  intros I H. destruct (any_in ws s) eqn:E; [|reflexivity].
  rewrite (any_in_incl ws ws' s I E) in H. discriminate.
Qed.

Lemma startswith_app (w s : pystr) :
  startswith w s = true <-> exists t, s = w ++ t.
Proof.
  revert s. induction w as [|x w IH]; intro s; simpl.
  - split; [intros _; exists s; reflexivity | reflexivity].
  - destruct s as [|y s].
    + split; [discriminate | intros (t & E); discriminate].
    + rewrite andb_true_iff, N.eqb_eq, IH. split.
      * intros (-> & t & ->). exists t. reflexivity.
      * intros (t & E). injection E as -> ->. split; [reflexivity|].
        exists t. reflexivity.
Qed.

(** [w in s] holds exactly when [s] is [w] between two strings. *)
Lemma contains_app (w s : pystr) :
  contains w s = true <-> exists pre post, s = pre ++ w ++ post.
Proof.
  induction s as [|c s IH].
  - simpl. rewrite orb_false_r, startswith_app. split.
    + intros (t & E). exists [], t. exact E.
    + intros (pre & post & E). destruct pre as [|p pre]; [|discriminate].
      exists post. exact E.
  - cbn [contains]. rewrite orb_true_iff, startswith_app, IH. split.
    + intros [(t & E) | (pre & post & E)].
      * exists [], t. exact E.
      * exists (c :: pre), post. rewrite E. reflexivity.
    + intros (pre & post & E). destruct pre as [|p pre].
      * left. exists post. exact E.
      * right. injection E as -> ->. exists pre, post. reflexivity.
Qed.

(** Substring containment is transitive. *)
Lemma contains_trans (a b s : pystr) :
  contains a b = true -> contains b s = true -> contains a s = true.
Proof.
  rewrite !contains_app. intros (p1 & q1 & ->) (p2 & q2 & ->).
  exists (p2 ++ p1), (q1 ++ q2). rewrite <- !app_assoc. reflexivity.
Qed.

(** ** Rationals, continued *)

Lemma Qgt_bool_comp (x x' y y' : Q) :
  x == x' -> y == y' -> Qgt_bool x y = Qgt_bool x' y'.
Proof.
  intros Ex Ey. unfold Qgt_bool. rewrite (Qleb_comp _ _ Ex _ _ Ey). reflexivity.
Qed.

Lemma calculate_stress_slots_comp (x y : Q) :
  x == y -> calculate_stress_slots x = calculate_stress_slots y.
Proof.
  intro E. unfold calculate_stress_slots.
  rewrite (Qgt_bool_comp x y 0.7 0.7 E (Qeq_refl _)).
  rewrite (Qgt_bool_comp x y 0.4 0.4 E (Qeq_refl _)). reflexivity.
Qed.

(** X1. The slot budget is a step function that never grows with the
    stress level: more stress, no more slots; and it is 2, 3 or 4. *)
Theorem calculate_stress_slots_antitone (s1 s2 : Q) :
  s1 <= s2 ->
  (calculate_stress_slots s2 <= calculate_stress_slots s1)%Z /\
  (2 <= calculate_stress_slots s2 <= 4)%Z.
Proof.
  intro L. unfold calculate_stress_slots.
  destruct (Qgt_bool s2 0.7) eqn:A2; destruct (Qgt_bool s1 0.7) eqn:A1;
    destruct (Qgt_bool s2 0.4) eqn:B2; destruct (Qgt_bool s1 0.4) eqn:B1;
    try (split; lia); exfalso;
    repeat match goal with
           | H : Qgt_bool _ _ = true |- _ => apply Qgt_bool_true in H
           | H : Qgt_bool _ _ = false |- _ => apply Qgt_bool_false in H
           end; lra.
Qed.

Lemma calculate_stress_slots_antitone_witness :
  0.5 <= 0.8 /\
  (calculate_stress_slots 0.8 <= calculate_stress_slots 0.5)%Z.
Proof.
  assert (L : 0.5 <= 0.8) by discriminate.
  split; [exact L|].
  exact (proj1 (calculate_stress_slots_antitone 0.5 0.8 L)).
Defined.

(** ** The heuristic classifier: the values it can return *)

Section EmotionValues.
Context {R : PyRuntime}.
Import EmotionAgent.

(** The four words of the [elif] branch are stress indicators themselves,
    so the branch that sets the stress to 0.4 is never taken. *)
Lemma minimum_stress_branch_dead (lower : pystr) :
  stress_count_of lower = 0%Z ->
  any_in (map utf8 ["stress"; "ansiedade"; "preocupado"; "sobrecarregado"]%string)
         lower = false.
Proof.
  intro Z0.
  apply (any_in_false_incl _ stress_indicators).
  - intros w I. apply str_mem_In. apply str_mem_In in I.
    unfold str_mem in I. cbn [map existsb] in I.
    repeat (apply orb_true_iff in I; destruct I as [I|I];
            [apply str_eqb_eq in I; subst w; vm_compute; reflexivity|]).
    discriminate.
  - destruct (any_in stress_indicators lower) eqn:E; [|reflexivity].
    apply stress_count_pos in E. lia.
Qed.

Lemma heuristic_stress_table (lower : pystr) :
  heuristic_stress lower ==
  stress_table (stress_count_of lower) (high_stress_phrase_found lower).
Proof.
  unfold heuristic_stress, stress_table.
  pose proof (stress_count_nonneg lower) as NN.
  destruct (stress_count_of lower =? 0)%Z eqn:Z0.
  - apply Z.eqb_eq in Z0.
    assert (C : counted_stress (stress_count_of lower) lower == 0).
    { unfold counted_stress.
      destruct (0 <? stress_count_of lower)%Z eqn:P;
        [apply Z.ltb_lt in P; lia|].
      rewrite (minimum_stress_branch_dead lower Z0). reflexivity. }
    destruct (high_stress_phrase_found lower); rewrite C; reflexivity.
  - apply Z.eqb_neq in Z0.
    assert (P : (0 < stress_count_of lower)%Z) by lia.
    pose proof (Qeq_trans _ _ _ (counted_stress_spec _ lower P)
                  (spec_stress_values _ P)) as E.
    destruct (stress_count_of lower =? 1)%Z;
      [|destruct (stress_count_of lower =? 2)%Z];
      destruct (high_stress_phrase_found lower); rewrite E; reflexivity.
Qed.

Lemma stress_table_hundredths (count : Z) (phrase : bool) :
  exists z : Z, stress_table count phrase == inject_Z z / 100.
Proof.
  unfold stress_table.
  destruct (count =? 0)%Z; [destruct phrase; [exists 70%Z | exists 0%Z]; reflexivity|].
  destruct (count =? 1)%Z; [destruct phrase; [exists 70%Z | exists 65%Z]; reflexivity|].
  destruct (count =? 2)%Z; [exists 90%Z | exists 100%Z]; reflexivity.
Qed.

Lemma classify_heuristic_scores (text : pystr) :
  stress_score (emotion (_classify_heuristic text))
  = round2 (heuristic_stress (str_lower text)) /\
  valence (emotion (_classify_heuristic text))
  = round2 (counted_valence (valence_count_of (str_lower text))) /\
  dominant (emotion (_classify_heuristic text))
  = Some (heuristic_dominant
            (heuristic_stress (str_lower text))
            (counted_valence (valence_count_of (str_lower text)))).
Proof. repeat split. Qed.

Lemma rounded_stress_table (lower : pystr) :
  round2 (heuristic_stress lower) ==
  stress_table (stress_count_of lower) (high_stress_phrase_found lower).
Proof.
  destruct (stress_table_hundredths (stress_count_of lower)
              (high_stress_phrase_found lower)) as [z Hz].
  pose proof (heuristic_stress_table lower) as T.
  rewrite (round2_hundredths (heuristic_stress lower) z (Qeq_trans _ _ _ T Hz)).
  exact T.
Qed.

Lemma stress_table_values (count : Z) (phrase : bool) :
  let v := stress_table count phrase in
  (v == 0 \/ v == 0.65 \/ v == 0.7 \/ v == 0.9 \/ v == 1) /\ ~ v == 0.4.
Proof.
  unfold stress_table.
  destruct (count =? 0)%Z; [destruct phrase|];
    [| |destruct (count =? 1)%Z; [destruct phrase|];
        [| |destruct (count =? 2)%Z]];
    cbv zeta;
    (split;
     [first [ left; reflexivity
            | right; left; reflexivity
            | right; right; left; reflexivity
            | right; right; right; left; reflexivity
            | right; right; right; right; reflexivity ]
     | apply Qeq_bool_neq; reflexivity ]).
Qed.

(** X2. The stress score of the heuristic classifier takes five values
    only: 0 (no indicator, no phrase), 0.65 (one counted unit), 0.7 (a
    high-intensity phrase with at most one counted unit), 0.9 (two units)
    and 1 (three or more). The value 0.4 of the [elif] branch is never
    returned. *)
Theorem heuristic_stress_values (text : pystr) :
  let lower := str_lower text in
  let stress := stress_score (emotion (_classify_heuristic text)) in
  stress == stress_table (stress_count_of lower) (high_stress_phrase_found lower) /\
  (stress == 0 \/ stress == 0.65 \/ stress == 0.7 \/ stress == 0.9 \/ stress == 1) /\
  ~ stress == 0.4.
Proof.
  intros lower stress. subst stress lower.
  destruct (classify_heuristic_scores text) as (-> & _ & _).
  pose proof (rounded_stress_table (str_lower text)) as S.
  pose proof (stress_table_values (stress_count_of (str_lower text))
                (high_stress_phrase_found (str_lower text))) as V.
  cbv zeta in V. destruct V as [V N].
  split; [exact S|]. split.
  - destruct V as [V|[V|[V|[V|V]]]];
      [left | right; left | right; right; left | right; right; right; left
       | right; right; right; right];
      exact (Qeq_trans _ _ _ S V).
  - intro H. apply N. exact (Qeq_trans _ _ _ (Qeq_sym _ _ S) H).
Qed.

Lemma valence_count_loop (lower : pystr) (l : list pystr) : forall acc : Z,
  let r := fold_left (fun n w => if contains w lower then (n + 1)%Z else n) l acc in
  (acc <= r <= acc + len l)%Z.
Proof.
  unfold len. induction l as [|w l IH]; intro acc; simpl List.length; simpl fold_left.
  - lia.
  - destruct (contains w lower).
    + specialize (IH (acc + 1)%Z). simpl in IH. lia.
    + specialize (IH acc). simpl in IH. lia.
Qed.

Lemma valence_count_range (lower : pystr) :
  (0 <= valence_count_of lower <= 27)%Z.
Proof.
  assert (L : len valence_indicators = 27%Z) by (vm_compute; reflexivity).
  pose proof (valence_count_loop lower valence_indicators 0%Z) as B.
  cbv zeta in B. rewrite L in B. unfold valence_count_of. exact B.
Qed.

Lemma counted_valence_values (n : Z) :
  (0 < n)%Z ->
  exists z : Z, (40 <= z <= 90)%Z /\
                counted_valence n == inject_Z z / 100 /\
                counted_valence n == Qmin 0.9 (0.3 + inject_Z n * 0.1).
Proof.
  intro P. unfold counted_valence.
  replace (0 <? n)%Z with true by (symmetry; apply Z.ltb_lt; exact P).
  destruct (Z_le_gt_dec n 6) as [L|G].
  - exists (30 + 10 * n)%Z. split; [lia|]. split; [|reflexivity].
    rewrite Q.min_r; [|clear P; q_arith]. clear P L. q_arith.
  - exists 90%Z. split; [lia|]. split; [|reflexivity].
    rewrite Q.min_l; [reflexivity | clear P; q_arith].
Qed.

Lemma hundredths_between (z : Z) (x : Q) :
  (40 <= z <= 90)%Z -> x == inject_Z z / 100 -> 0.4 <= x <= 0.9.
Proof.
  intros [A B] E. rewrite E. clear E. q_arith.
Qed.

(** X3. The valence of the heuristic classifier is 0 when no positive
    word is found and otherwise [0.3 + 0.1 * count] capped at 0.9: it is
    never strictly between 0 and 0.4 and never above 0.9. *)
Theorem heuristic_valence_values (text : pystr) :
  let count := valence_count_of (str_lower text) in
  let v := valence (emotion (_classify_heuristic text)) in
  (0 <= count <= 27)%Z /\
  (count = 0%Z -> v == 0) /\
  ((0 < count)%Z ->
   v == Qmin 0.9 (0.3 + inject_Z count * 0.1) /\ 0.4 <= v <= 0.9).
Proof.
  intros count v. subst v count.
  destruct (classify_heuristic_scores text) as (_ & -> & _).
  split; [apply valence_count_range|]. split.
  - intros ->. reflexivity.
  - intro P.
    destruct (counted_valence_values _ P) as (z & Bz & Hz & Hm).
    pose proof (round2_hundredths _ z Hz) as E.
    split.
    + exact (Qeq_trans _ _ _ E Hm).
    + apply (hundredths_between z); [exact Bz|].
      exact (Qeq_trans _ _ _ E Hz).
Qed.

End EmotionValues.

Lemma heuristic_valence_values_witness :
  (0 < EmotionAgent.valence_count_of (@str_lower latin1 (utf8 "Estou feliz e contente")))%Z /\
  valence (EmotionAgent.emotion (@EmotionAgent._classify_heuristic latin1 (utf8 "Estou feliz e contente")))
  == 0.6.
Proof.
  assert (P : (0 < EmotionAgent.valence_count_of
                     (@str_lower latin1 (utf8 "Estou feliz e contente")))%Z)
    by reflexivity.
  split; [exact P|].
  destruct (@heuristic_valence_values latin1 (utf8 "Estou feliz e contente"))
    as (_ & _ & H).
  destruct (H P) as [E _]. rewrite E. reflexivity.
Defined.

Section EmotionLabels.
Context {R : PyRuntime}.
Import EmotionAgent.

Lemma heuristic_dominant_comp (s s' v v' : Q) :
  s == s' -> v == v' -> heuristic_dominant s v = heuristic_dominant s' v'.
Proof.
  intros Es Ev. unfold heuristic_dominant.
  rewrite (Qgt_bool_comp s s' 0.7 0.7 Es (Qeq_refl _)).
  rewrite (Qgt_bool_comp s s' 0.4 0.4 Es (Qeq_refl _)).
  rewrite (Qgt_bool_comp s s' v v' Es Ev).
  rewrite (Qgt_bool_comp v v' s s' Ev Es). reflexivity.
Qed.

Lemma counted_valence_sign (n : Z) :
  Qgt_bool 0 (counted_valence n) = false /\
  Qgt_bool (counted_valence n) 0 = (0 <? n)%Z.
Proof.
  unfold counted_valence. destruct (0 <? n)%Z eqn:P; [|split; reflexivity].
  apply Z.ltb_lt in P.
  assert (L : 0.3 <= Qmin 0.9 (0.3 + inject_Z n * 0.1)).
  { apply Q.min_glb; [discriminate | q_arith]. }
  split.
  - apply Qgt_bool_false. lra.
  - apply Qgt_bool_true. lra.
Qed.

(** The rows of the tables, once the count is known not to be negative. *)
Lemma table_rows (count : Z) (phrase : bool) :
  (0 <= count)%Z ->
  (count = 0%Z /\ phrase = false /\ stress_table count phrase = 0 /\
   (2 <=? count)%Z = false /\ ((1 <=? count)%Z || phrase) = false) \/
  (stress_table count phrase = 0.65 /\
   (2 <=? count)%Z = false /\ ((1 <=? count)%Z || phrase) = true) \/
  (stress_table count phrase = 0.7 /\
   (2 <=? count)%Z = false /\ ((1 <=? count)%Z || phrase) = true) \/
  (stress_table count phrase = 0.9 /\ (2 <=? count)%Z = true) \/
  (stress_table count phrase = 1 /\ (2 <=? count)%Z = true).
Proof.
  intro NN. unfold stress_table.
  destruct (count =? 0)%Z eqn:C0.
  - apply Z.eqb_eq in C0. subst count. destruct phrase.
    + right; right; left. repeat split.
    + left. repeat split.
  - apply Z.eqb_neq in C0. destruct (count =? 1)%Z eqn:C1.
    + apply Z.eqb_eq in C1. subst count. destruct phrase.
      * right; right; left. repeat split.
      * right; left. repeat split.
    + apply Z.eqb_neq in C1.
      assert (G : (2 <=? count)%Z = true) by (apply Z.leb_le; lia).
      destruct (count =? 2)%Z.
      * right; right; right; left. split; [reflexivity | exact G].
      * right; right; right; right. split; [reflexivity | exact G].
Qed.

Lemma dominant_of_table (count : Z) (phrase : bool) (valence_count : Z) (s : Q) :
  (0 <= count)%Z -> s == stress_table count phrase ->
  heuristic_dominant s (counted_valence valence_count)
  = dominant_table count phrase valence_count.
Proof.
  intros NN E.
  rewrite (heuristic_dominant_comp _ _ _ _ E (Qeq_refl _)).
  destruct (counted_valence_sign valence_count) as [V1 V2].
  unfold dominant_table.
  destruct (table_rows count phrase NN)
    as [(_ & _ & T & A & B) | [(T & A & B) | [(T & A & B) | [(T & A) | (T & A)]]]];
    rewrite T, A; try rewrite B; unfold heuristic_dominant.
  - change (Qgt_bool 0 0.7) with false. change (Qgt_bool 0 0.4) with false.
    cbv iota. rewrite V1, V2. reflexivity.
  - reflexivity.
  - reflexivity.
  - reflexivity.
  - reflexivity.
Qed.

Lemma slots_of_table (count : Z) (phrase : bool) (s : Q) :
  (0 <= count)%Z -> s == stress_table count phrase ->
  calculate_stress_slots s = slots_table count phrase.
Proof.
  intros NN E. rewrite (calculate_stress_slots_comp _ _ E).
  unfold slots_table.
  destruct (table_rows count phrase NN)
    as [(_ & _ & T & A & B) | [(T & A & B) | [(T & A & B) | [(T & A) | (T & A)]]]];
    rewrite T, A; try rewrite B; reflexivity.
Qed.

Lemma dominant_table_labels (count : Z) (phrase : bool) (valence_count : Z) :
  dominant_table count phrase valence_count <> utf8 "stress_leve".
Proof.
  unfold dominant_table.
  destruct (2 <=? count)%Z; [vm_compute; discriminate|].
  destruct ((1 <=? count)%Z || phrase); [vm_compute; discriminate|].
  destruct (0 <? valence_count)%Z; vm_compute; discriminate.
Qed.

(** X4. The dominant label of the heuristic classifier is decided by the
    indicator count, the phrase detector and the count of positive words:
    [alto_stress] from two counted units on, [stress] for one unit or a
    phrase, [felicidade] when only positive words are found, [neutro]
    otherwise. The label [stress_leve] of the source is never returned. *)
Theorem heuristic_dominant_values (text : pystr) :
  let lower := str_lower text in
  let label := dominant (emotion (_classify_heuristic text)) in
  label = Some (dominant_table (stress_count_of lower)
                               (high_stress_phrase_found lower)
                               (valence_count_of lower)) /\
  label <> Some (utf8 "stress_leve").
Proof.
  intros lower label. subst label lower.
  destruct (classify_heuristic_scores text) as (_ & _ & ->).
  rewrite (dominant_of_table (stress_count_of (str_lower text))
             (high_stress_phrase_found (str_lower text))
             (valence_count_of (str_lower text))
             (heuristic_stress (str_lower text))
             (stress_count_nonneg _) (heuristic_stress_table _)).
  split; [reflexivity|].
  intro H. injection H as H. exact (dominant_table_labels _ _ _ H).
Qed.

Lemma heuristic_slots_table (text : pystr) :
  calculate_stress_slots (stress_score (emotion (_classify_heuristic text)))
  = slots_table (stress_count_of (str_lower text))
                (high_stress_phrase_found (str_lower text)).
Proof.
  destruct (classify_heuristic_scores text) as (-> & _ & _).
  apply slots_of_table; [apply stress_count_nonneg|].
  apply rounded_stress_table.
Qed.

Lemma clamp_id (x : Q) : 0 <= x <= 1 -> Qmax 0.0 (Qmin 1.0 x) == x.
Proof.
  intros [L U].
  assert (M : Qmin 1.0 x == x) by (apply Q.min_r; lra).
  rewrite M. apply Q.max_r. lra.
Qed.

(** What [respond] reports of an emotion agent that answers. *)
Lemma respond_emotion_fields (self : Coordinator.t)
    (ea : Coordinator.EmotionAgentI) (intent : InterfaceAgent.Intent)
    (c : Classification) :
  Coordinator.emotion self = Some ea ->
  Coordinator.classify ea (InterfaceAgent.raw_text intent) = inr c ->
  dominant (Response.emotion (Coordinator.respond self intent))
  = dominant (emotion c) /\
  Response.available_slots
    (Response.optimized_schedule (Coordinator.respond self intent))
  = Some (calculate_stress_slots
            (Qmax 0.0 (Qmin 1.0 (stress_score (emotion c))))).
Proof.
  intros E C. unfold Coordinator.respond. rewrite E, C. split; reflexivity.
Qed.

Lemma emotion_agent_classify (transformers : transformers_import) (agent : t)
    (text : pystr) :
  Coordinator.classify (Coordinator.emotion_agent transformers agent) text
  = inr (_classify_heuristic text).
Proof.
  unfold Coordinator.emotion_agent, Coordinator.classify.
  rewrite classify_unfold. destruct text; reflexivity.
Qed.

(** X5. In every response that the coordinator builds with the
    repository's emotion agent, the slot budget follows the dominant
    label of the text: [alto_stress] goes with 2 slots, [stress] with 3,
    [felicidade] and [neutro] with 4. *)
Theorem respond_slots_follow_label (self : Coordinator.t)
    (transformers : transformers_import) (agent : t)
    (intent : InterfaceAgent.Intent) :
  Coordinator.emotion self = Some (Coordinator.emotion_agent transformers agent) ->
  let response := Coordinator.respond self intent in
  let label := dominant (Response.emotion response) in
  let slots := Response.available_slots (Response.optimized_schedule response) in
  (label = Some (utf8 "alto_stress") /\ slots = Some 2%Z) \/
  (label = Some (utf8 "stress") /\ slots = Some 3%Z) \/
  ((label = Some (utf8 "felicidade") \/ label = Some (utf8 "neutro")) /\
   slots = Some 4%Z).
Proof.
  intros E response label slots. subst response label slots.
  set (text := InterfaceAgent.raw_text intent).
  destruct (respond_emotion_fields self _ intent (_classify_heuristic text) E
              (emotion_agent_classify transformers agent text)) as [-> ->].
  assert (B : 0 <= stress_score (emotion (_classify_heuristic text)) <= 1).
  { destruct (classify_heuristic_scores text) as (-> & _ & _).
    apply round2_unit. apply heuristic_stress_unit. }
  rewrite (calculate_stress_slots_comp _ _ (clamp_id _ B)).
  rewrite (heuristic_slots_table text).
  destruct (heuristic_dominant_values text) as [D _]. cbv zeta in D.
  rewrite D. unfold dominant_table, slots_table.
  destruct (2 <=? stress_count_of (str_lower text))%Z;
    [left; split; reflexivity|].
  destruct ((1 <=? stress_count_of (str_lower text))%Z
            || high_stress_phrase_found (str_lower text));
    [right; left; split; reflexivity|].
  right; right.
  destruct (0 <? valence_count_of (str_lower text))%Z;
    (split; [|reflexivity]); [left | right]; reflexivity.
Qed.

End EmotionLabels.

Lemma respond_slots_follow_label_witness :
  Coordinator.emotion FeedbackSamples.coordinator_no_token
  = Some (@Coordinator.emotion_agent latin1 EmotionAgent.ImportFails
            (EmotionAgent.__init__ None None None)) /\
  Response.available_slots
    (Response.optimized_schedule
       (@Coordinator.respond latin1 FeedbackSamples.coordinator_no_token
          (Coordinator.default_intent Samples.text_exams)))
  = Some 2%Z.
Proof.
  split; [reflexivity|].
  destruct (@respond_slots_follow_label latin1
              FeedbackSamples.coordinator_no_token EmotionAgent.ImportFails
              (EmotionAgent.__init__ None None None)
              (Coordinator.default_intent Samples.text_exams)
              eq_refl) as [[_ S] | [[L _] | [[L|L] _]]].
  - exact S.
  - vm_compute in L. discriminate L.
  - vm_compute in L. discriminate L.
  - vm_compute in L. discriminate L.
Defined.

(** ** The external scorer: lazy initialisation and votes *)

Section ExternalScorer.
Context {R : PyRuntime}.
Import EmotionAgent.

Lemma init_lazy_invariant (env_use_hf model_name : option pystr)
    (use_hf : option bool) :
  lazy_invariant (__init__ env_use_hf model_name use_hf).
Proof. intros _. reflexivity. Qed.

(** X6. The lazy initialisation of the external scorer runs at most once.
    For an agent that holds no pipeline before the initialisation, as
    [__init__] leaves it and as this method keeps it, the first call of
    [_ensure_pipeline_initialized] imports and builds only
    if [use_hf] is set, answers [True] exactly when it then holds a
    pipeline, and clears [use_hf] when the import or the build fails; any
    later call, whatever the import would now do, touches nothing,
    changes nothing and gives the same answer. *)
Theorem ensure_pipeline_initialized_once
    (transformers transformers' : transformers_import) (self : t) :
  lazy_invariant self ->
  let '(ready, self1, evs) := _ensure_pipeline_initialized transformers self in
  let '(ready', self2, evs') := _ensure_pipeline_initialized transformers' self1 in
  _pipeline_initialized self1 = true /\
  lazy_invariant self1 /\
  ready = is_some (pipeline self1) /\
  (_use_hf self = false -> evs = []) /\
  (_pipeline_initialized self = false -> ready = false -> _use_hf self1 = false) /\
  evs' = [] /\ self2 = self1 /\ ready' = ready.
Proof.
  intro Inv. unfold lazy_invariant in *.
  unfold _ensure_pipeline_initialized at 1.
  destruct (_pipeline_initialized self) eqn:I.
  - unfold _ensure_pipeline_initialized. rewrite I.
    repeat split; intros; auto; discriminate.
  - specialize (Inv eq_refl).
    destruct (_use_hf self) eqn:U; cbn [negb].
    + destruct transformers as [| |pipeline_fn].
      * unfold _ensure_pipeline_initialized. cbn.
        repeat split; intros; auto; discriminate.
      * unfold _ensure_pipeline_initialized. cbn. rewrite Inv.
        repeat split; intros; auto; discriminate.
      * destruct (pipeline_fn _) as [p|];
          unfold _ensure_pipeline_initialized; cbn;
          repeat split; intros; auto; discriminate.
    + unfold _ensure_pipeline_initialized. cbn. rewrite Inv, U.
      repeat split; intros; auto; discriminate.
Qed.

Lemma ensure_pipeline_initialized_once_witness :
  lazy_invariant (__init__ None None (Some true)) /\
  snd (_ensure_pipeline_initialized ImportFails
         (snd (fst (_ensure_pipeline_initialized
                      (PipelineFn (fun _ => Some Samples.scorer_fear))
                      (__init__ None None (Some true)))))) = [].
Proof.
  split; [apply init_lazy_invariant|].
  pose proof (ensure_pipeline_initialized_once
                (PipelineFn (fun _ => Some Samples.scorer_fear)) ImportFails
                (__init__ None None (Some true))
                (init_lazy_invariant None None (Some true))) as W.
  destruct (_ensure_pipeline_initialized
              (PipelineFn (fun _ => Some Samples.scorer_fear))
              (__init__ None None (Some true))) as [[ready self1] evs].
  cbn [fst snd].
  destruct (_ensure_pipeline_initialized ImportFails self1)
    as [[ready' self2] evs'].
  cbn [snd]. destruct W as (_ & _ & _ & _ & _ & E & _). exact E.
Defined.

Lemma label_vote_loop (labels : list pystr) (flat : list LabelScore) :
  forall acc,
  0 <= acc -> Forall (fun r => 0 <= score r) flat ->
  0 <= fold_left (fun acc r =>
                    match label r with
                    | Some l => if str_mem (str_lower l) labels
                                then acc + score r else acc
                    | None => acc
                    end) flat acc.
Proof.
  induction flat as [|r flat IH]; intros acc A F; simpl; [exact A|].
  inversion F as [|? ? P F']; subst.
  apply IH; [|exact F'].
  destruct (label r) as [l|]; [|exact A].
  destruct (str_mem (str_lower l) labels); [|exact A].
  rewrite <- (Qplus_0_r 0). apply Qplus_le_compat; assumption.
Qed.

Lemma max_by_score_spec (flat : list LabelScore) : forall best,
  In (max_by_score best flat) (best :: flat) /\
  Forall (fun r => score r <= score (max_by_score best flat)) (best :: flat).
Proof.
  induction flat as [|r flat IH]; intro best; simpl.
  - split; [left; reflexivity|]. constructor; [apply Qle_refl | constructor].
  - destruct (Qlt_bool (score best) (score r)) eqn:C.
    + apply Qlt_bool_true in C. destruct (IH r) as [I F].
      split; [right; exact I|].
      inversion F as [|? ? Hr F']; subst.
      constructor; [|constructor; assumption].
      apply Qle_trans with (score r); [apply Qlt_le_weak; exact C | exact Hr].
    + apply Qlt_bool_false in C. destruct (IH best) as [I F].
      split; [destruct I as [I|I]; [left; exact I | right; right; exact I]|].
      inversion F as [|? ? Hb F']; subst.
      constructor; [exact Hb|].
      constructor; [|exact F'].
      apply Qle_trans with (score best); assumption.
Qed.

(** X7. When the external scorer answers, [_classify_with_hf] returns
    stress and valence that never exceed 1, and that are not negative
    as long as no score of the answer is; the dominant label is the label
    of an entry whose score no other entry exceeds, and there is none when
    the answer holds no entry. *)
Theorem classify_with_hf_votes (p : HFPipeline) (text : pystr)
    (c : Classification) :
  _classify_with_hf p text = inr c ->
  stress_score (emotion c) <= 1 /\ valence (emotion c) <= 1 /\
  (Forall (fun r => 0 <= score r) (raw c) ->
   0 <= stress_score (emotion c) /\ 0 <= valence (emotion c)) /\
  (raw c = [] -> dominant (emotion c) = None) /\
  (raw c <> [] ->
   exists r, In r (raw c) /\ dominant (emotion c) = label r /\
             Forall (fun r' => score r' <= score r) (raw c)).
Proof.
  unfold _classify_with_hf.
  destruct (p text) as [results|]; [|discriminate].
  destruct (flatten_results results) as [flat|]; [|discriminate].
  intro H. injection H as <-. cbn [raw emotion stress_score valence dominant].
  split; [apply Q.le_min_l|]. split; [apply Q.le_min_l|].
  split; [|split].
  - intro F. split; (apply Q.min_glb; [discriminate|]);
      apply label_vote_loop; [apply Qle_refl | exact F | apply Qle_refl | exact F].
  - intros ->. reflexivity.
  - intro N. destruct flat as [|r rest]; [contradiction|].
    destruct (max_by_score_spec rest r) as [I F].
    exists (max_by_score r rest). repeat split; assumption.
Qed.

End ExternalScorer.

Lemma classify_with_hf_votes_witness :
  match @EmotionAgent._classify_with_hf latin1 Samples.scorer_fear
          Samples.text_fear with
  | inr c => stress_score (EmotionAgent.emotion c) <= 1 /\
             dominant (EmotionAgent.emotion c) = Some (utf8 "fear")
  | inl _ => False
  end.
Proof.
  destruct (@EmotionAgent._classify_with_hf latin1 Samples.scorer_fear
              Samples.text_fear) as [e|c] eqn:H.
  - vm_compute in H. discriminate H.
  - split.
    + exact (proj1 (@classify_with_hf_votes latin1 Samples.scorer_fear
                      Samples.text_fear c H)).
    + vm_compute in H. injection H as <-. reflexivity.
Defined.

(** ** The slot allocator, continued *)

Lemma fifo_slots_app (l m : list pystr) : forall k,
  fifo_slots k (l ++ m) = fifo_slots k l ++ fifo_slots (k + List.length l) m.
Proof.
  induction l as [|t l IH]; intro k; simpl.
  - rewrite Nat.add_0_r. reflexivity.
  - rewrite IH. do 3 f_equal. lia.
Qed.

Lemma firstn_prefix (A : Type) (l : list A) : forall n n',
  (n <= n')%nat -> exists rest, firstn n' l = firstn n l ++ rest.
Proof.
  induction l as [|a l IH]; intros n n' L.
  - exists []. rewrite !firstn_nil. reflexivity.
  - destruct n as [|n].
    + exists (firstn n' (a :: l)). reflexivity.
    + destruct n' as [|n']; [lia|].
      destruct (IH n n' ltac:(lia)) as [rest E].
      exists rest. simpl. rewrite E. reflexivity.
Qed.

(** X8. A larger budget or more tasks only extend a schedule: the slots
    already given are never renumbered or reordered. A budget that is not
    positive gives the empty schedule. *)
Theorem bfs_schedule_extends (tasks more : list pystr) (budget budget' : Z) :
  (budget <= budget')%Z ->
  (exists rest, bfs_schedule tasks budget' = bfs_schedule tasks budget ++ rest) /\
  (exists rest,
      bfs_schedule (tasks ++ more) budget = bfs_schedule tasks budget ++ rest) /\
  ((budget <= 0)%Z -> bfs_schedule tasks budget = []).
Proof.
  intro L. rewrite !bfs_schedule_spec. split; [|split].
  - destruct (firstn_prefix pystr tasks (Z.to_nat budget) (Z.to_nat budget')
                ltac:(lia)) as [rest E].
    rewrite E, fifo_slots_app. eexists. reflexivity.
  - rewrite firstn_app, fifo_slots_app. eexists. reflexivity.
  - intro NP. replace (Z.to_nat budget) with O by lia. reflexivity.
Qed.

Lemma bfs_schedule_extends_witness :
  (2 <= 3)%Z /\
  exists rest,
    bfs_schedule [utf8 "a"; utf8 "b"; utf8 "c"] 3
    = bfs_schedule [utf8 "a"; utf8 "b"; utf8 "c"] 2 ++ rest.
Proof.
  assert (L : (2 <= 3)%Z) by lia.
  split; [exact L|].
  exact (proj1 (bfs_schedule_extends [utf8 "a"; utf8 "b"; utf8 "c"] [] 2 3 L)).
Defined.

(** ** The feedback synthesiser, continued *)

Section FeedbackFurther.
Context {R : PyRuntime}.
Import FeedbackAgent.

(** X9. [_call_openrouter] accepts a reply exactly when its status is 200,
    some content was extracted from it, and what was parsed from the
    content is an object whose [recommendations] is a non-empty list; the
    envelope is then tagged [openrouter] and carries that list. Every
    other reply, and every failed request, raises. *)
Theorem call_openrouter_accepts (outcome : post_outcome) (result : Envelope) :
  _call_openrouter outcome = inr result <->
  exists response c cs d r rs,
    outcome = PostReturns response /\
    status_code response = 200%Z /\
    content response = Some (c :: cs) /\
    parsed response = Some (JObj d) /\
    dict_get (utf8 "recommendations") d = Some (JArr (r :: rs)) /\
    result = {| recommendations := r :: rs;
                follow_up_prompt := dict_get (utf8 "follow_up_prompt") d;
                source := utf8 "openrouter";
                extra := filter (fun kv => negb (is_reserved_key (fst kv))) d |}.
Proof.
  unfold _call_openrouter. split.
  - destruct outcome as [e|response]; [discriminate|].
    destruct (status_code response =? 200)%Z eqn:S; cbn [negb].
    2:{ destruct (status_code response =? 401)%Z; [discriminate|].
        destruct (status_code response =? 429)%Z; discriminate. }
    apply Z.eqb_eq in S.
    destruct (content response) as [[|c cs]|] eqn:C; try discriminate.
    destruct (parsed response) as [v|] eqn:P; [|discriminate].
    destruct (truthy v); cbn [negb]; [|discriminate].
    destruct v as [| | | | |d]; try discriminate.
    destruct (dict_get (utf8 "recommendations") d) as [v|] eqn:G; [|discriminate].
    destruct v as [| | | |[|r rs]|]; try discriminate.
    intro H. injection H as <-.
    exists response, c, cs, d, r, rs. repeat split; assumption.
  - intros (response & c & cs & d & r & rs & -> & S & C & P & G & ->).
    rewrite S, C, P. cbn [Z.eqb Pos.eqb negb].
    destruct d as [|kv d]; [discriminate G|].
    cbn [truthy negb]. rewrite G. reflexivity.
Qed.

Lemma call_openrouter_accepted (outcome : post_outcome) (result : Envelope) :
  _call_openrouter outcome = inr result ->
  source result = utf8 "openrouter" /\ recommendations result <> [].
Proof.
  intro H. apply call_openrouter_accepts in H.
  destruct H as (response & c & cs & d & r & rs & _ & _ & _ & _ & _ & ->).
  split; [reflexivity | discriminate].
Qed.

(** The retry loop with [n] attempts left, the last of which is attempt
    [max_retries]. *)
Lemma retry_loop_trace (self : t) (net : network) (n : nat) :
  forall (attempt : Z) (last_exc : option exn),
  (Z.of_nat n + attempt = max_retries self + 1)%Z ->
  let '(result, evs) := retry_loop self net n attempt last_exc in
  exists k : nat,
    (k <= n)%nat /\ (n = O \/ 1 <= k)%nat /\
    evs = attempts_trace (retry_backoff self) attempt k /\
    (forall j, (j + 1 < k)%nat ->
               exists e, _call_openrouter (net (attempt + Z.of_nat j)%Z) = inl e) /\
    match result with
    | inr envelope =>
      (1 <= k)%nat /\
      _call_openrouter (net (attempt + Z.of_nat k - 1)%Z) = inr envelope
    | inl e =>
      k = n /\
      match n with
      | O => e = match last_exc with
                 | Some e' => e'
                 | None => Exception (utf8 "Unknown OpenRouter error")
                 end
      | S _ => _call_openrouter (net (attempt + Z.of_nat k - 1)%Z) = inl e
      end
    end.
Proof.
  induction n as [|n IH]; intros attempt last_exc Inv.
  - cbn [retry_loop]. exists O. repeat split; auto. intros j L. lia.
  - cbn [retry_loop].
    destruct (_call_openrouter (net attempt)) as [e|envelope] eqn:A.
    + specialize (IH (attempt + 1)%Z (Some e) ltac:(lia)).
      destruct (retry_loop self net n (attempt + 1) (Some e)) as [result evs].
      destruct IH as (k & Lk & Pk & Ek & Fk & Rk).
      exists (S k). split; [lia|]. split; [right; lia|].
      split; [|split].
      * destruct n as [|n].
        -- assert (k = O) by lia. subst k evs.
           replace (attempt <? max_retries self)%Z with false
             by (symmetry; apply Z.ltb_ge; lia).
           reflexivity.
        -- destruct k as [|k]; [lia|].
           replace (attempt <? max_retries self)%Z with true
             by (symmetry; apply Z.ltb_lt; lia).
           rewrite Ek. reflexivity.
      * intros [|j] Lj.
        -- exists e. rewrite Z.add_0_r. exact A.
        -- destruct (Fk j ltac:(lia)) as [e' E'].
           exists e'. rewrite <- E'. f_equal. f_equal. lia.
      * destruct result as [e'|envelope].
        -- destruct Rk as [-> Rk]. split; [reflexivity|].
           destruct n as [|n].
           ++ subst e'. rewrite <- A. f_equal. f_equal. lia.
           ++ rewrite <- Rk. f_equal. f_equal. lia.
        -- destruct Rk as [P1 Rk]. split; [lia|].
           rewrite <- Rk. f_equal. f_equal. lia.
    + exists 1%nat. split; [lia|]. split; [right; lia|].
      split; [reflexivity|]. split; [intros j L; lia|].
      split; [lia|]. rewrite <- A. f_equal. f_equal. lia.
Qed.

Lemma pow2_succ (a : Z) :
  (1 <= a)%Z -> inject_Z (2 ^ (a + 1 - 1)) == 2 * inject_Z (2 ^ (a - 1)).
Proof.
  intro P. replace (a + 1 - 1)%Z with (Z.succ (a - 1)) by lia.
  rewrite Z.pow_succ_r by lia. rewrite inject_Z_mult. reflexivity.
Qed.

(** The time slept in [k] attempts is a geometric sum. *)
Lemma total_sleep_attempts (backoff : Q) (k : nat) : forall attempt : Z,
  (1 <= attempt)%Z ->
  total_sleep (attempts_trace backoff attempt (S k)) ==
  backoff * inject_Z (2 ^ (attempt - 1)) * (inject_Z (2 ^ Z.of_nat k) - 1).
Proof.
  unfold total_sleep.
  induction k as [|k IH]; intros attempt P.
  - cbn. ring.
  - change (attempts_trace backoff attempt (S (S k)))
      with (Post attempt
            :: Sleep (backoff * inject_Z (2 ^ (attempt - 1)))
            :: attempts_trace backoff (attempt + 1) (S k)).
    cbn [sleeps_of fold_right].
    rewrite (IH (attempt + 1)%Z ltac:(lia)).
    rewrite (pow2_succ attempt P).
    replace (Z.of_nat (S k)) with (Z.succ (Z.of_nat k)) by lia.
    rewrite Z.pow_succ_r by lia. rewrite inject_Z_mult.
    change (inject_Z 2) with 2. ring.
Qed.

Lemma posts_of_attempts (backoff : Q) (k : nat) : forall a : nat,
  posts_of (attempts_trace backoff (Z.of_nat a) k) = map Z.of_nat (seq a k).
Proof.
  induction k as [|k IH]; intro a; [reflexivity|].
  destruct k as [|k]; [reflexivity|].
  change (attempts_trace backoff (Z.of_nat a) (S (S k)))
    with (Post (Z.of_nat a)
          :: Sleep (backoff * inject_Z (2 ^ (Z.of_nat a - 1)))
          :: attempts_trace backoff (Z.of_nat a + 1) (S k)).
  cbn [posts_of]. change (seq a (S (S k))) with (a :: seq (S a) (S k)).
  cbn [map]. f_equal.
  replace (Z.of_nat a + 1)%Z with (Z.of_nat (S a)) by lia.
  apply IH.
Qed.

(** X10. For every retry budget and every backoff base, the retry loop
    sends requests 1, 2, ... and stops at the first success or after
    [max_retries] failures; after failed request [i] that is not the last
    it sleeps [retry_backoff * 2^(i-1)], and never after the last. The
    time slept over [k] requests is [retry_backoff * (2^(k-1) - 1)]. A
    returned envelope is the reply to the last request sent; an error is
    raised only when every request failed. *)
Theorem retry_loop_general (self : t) (net : network) :
  let '(result, evs) := _call_openrouter_with_retries self net in
  exists k : nat,
    (Z.of_nat k <= Z.max 0 (max_retries self))%Z /\
    evs = attempts_trace (retry_backoff self) 1 k /\
    posts_of evs = map Z.of_nat (seq 1 k) /\
    (forall j, (1 <= j < k)%nat ->
               exists e, _call_openrouter (net (Z.of_nat j)) = inl e) /\
    ((1 <= k)%nat ->
     total_sleep evs ==
     retry_backoff self * (inject_Z (2 ^ Z.of_nat (k - 1)) - 1)) /\
    match result with
    | inr envelope => (1 <= k)%nat /\
                      _call_openrouter (net (Z.of_nat k)) = inr envelope
    | inl e => Z.of_nat k = Z.max 0 (max_retries self) /\
               ((1 <= k)%nat -> _call_openrouter (net (Z.of_nat k)) = inl e)
    end.
Proof.
  unfold _call_openrouter_with_retries.
  destruct (Z_le_gt_dec (max_retries self) 0) as [NP|P].
  - replace (Z.to_nat (max_retries self)) with O by lia. cbn [retry_loop].
    exists O. repeat split; intros; try reflexivity; lia.
  - pose proof (retry_loop_trace self net (Z.to_nat (max_retries self)) 1%Z
                  None ltac:(lia)) as H.
    destruct (retry_loop self net (Z.to_nat (max_retries self)) 1 None)
      as [result evs].
    destruct H as (k & Lk & Pk & Ek & Fk & Rk).
    exists k. split; [lia|]. split; [exact Ek|]. split; [|split; [|split]].
    + rewrite Ek. apply (posts_of_attempts (retry_backoff self) k 1%nat).
    + intros j [L1 L2]. destruct (Fk (j - 1)%nat ltac:(lia)) as [e E].
      exists e. rewrite <- E. f_equal. f_equal. lia.
    + intro K. rewrite Ek. destruct k as [|k]; [lia|].
      rewrite (total_sleep_attempts (retry_backoff self) k 1%Z ltac:(lia)).
      replace (S k - 1)%nat with k by lia.
      change (inject_Z (2 ^ (1 - 1))) with 1. ring.
    + destruct result as [e|envelope].
      * destruct Rk as [-> Rk]. split; [lia|]. intro K.
        destruct (Z.to_nat (max_retries self)) as [|m] eqn:M; [lia|].
        rewrite <- Rk. f_equal. f_equal. lia.
      * destruct Rk as [K Rk]. split; [exact K|].
        rewrite <- Rk. f_equal. f_equal. lia.
Qed.

(** X11. With a retry budget of zero or less the agent never contacts the
    service, token or not: the loop raises its "unknown error" at once and
    [generate_feedback] returns the heuristic envelope. *)
Theorem no_retries_no_request (self : t) (net : network)
    (emotion_summary : Emotion) (calendar_suggestions : list pystr) :
  (max_retries self <= 0)%Z ->
  _call_openrouter_with_retries self net
  = (inl (Exception (utf8 "Unknown OpenRouter error")), []) /\
  generate_feedback self net emotion_summary calendar_suggestions
  = (_heuristic_feedback emotion_summary calendar_suggestions, []).
Proof.
  intro NP.
  assert (E : _call_openrouter_with_retries self net
              = (inl (Exception (utf8 "Unknown OpenRouter error")), [])).
  { unfold _call_openrouter_with_retries.
    replace (Z.to_nat (max_retries self)) with O by lia. reflexivity. }
  split; [exact E|].
  unfold generate_feedback. rewrite E.
  destruct (openrouter_available self); reflexivity.
Qed.

End FeedbackFurther.

Lemma no_retries_no_request_witness :
  (FeedbackAgent.max_retries agent_no_retries <= 0)%Z /\
  FeedbackAgent.openrouter_available agent_no_retries = true /\
  @FeedbackAgent.generate_feedback latin1 agent_no_retries
    FeedbackSamples.net_four FeedbackSamples.calm []
  = (@FeedbackAgent._heuristic_feedback latin1 FeedbackSamples.calm [], []).
Proof.
  assert (L : (FeedbackAgent.max_retries agent_no_retries <= 0)%Z)
    by (vm_compute; discriminate).
  split; [exact L|]. split; [reflexivity|].
  exact (proj2 (@no_retries_no_request latin1 agent_no_retries
                  FeedbackSamples.net_four FeedbackSamples.calm [] L)).
Defined.

(** ** The feedback synthesiser: provenance and the heuristic generator *)

Section FeedbackProvenance.
Context {R : PyRuntime}.
Import FeedbackAgent.

Lemma posts_of_In (evs : list event) (k : Z) :
  In k (posts_of evs) -> In (Post k) evs.
Proof.
  induction evs as [|[j|d] evs IH]; simpl; intro H.
  - contradiction.
  - destruct H as [->|H]; [left; reflexivity | right; apply IH; exact H].
  - right. apply IH. exact H.
Qed.

Lemma heuristic_recommendations_nonempty (emotion_summary : Emotion)
    (calendar_suggestions : list pystr) :
  recommendations (_heuristic_feedback emotion_summary calendar_suggestions)
  <> [].
Proof.
  intro E.
  pose proof (heuristic_recommendations_length emotion_summary
                calendar_suggestions) as L.
  rewrite E in L. discriminate L.
Qed.

(** What [generate_feedback] returns: the reply to a request it made, or
    the heuristic envelope. *)
Lemma generate_feedback_provenance (self : t) (net : network)
    (emotion_summary : Emotion) (calendar_suggestions : list pystr) :
  let '(envelope, evs) :=
    generate_feedback self net emotion_summary calendar_suggestions in
  (exists k, In (Post k) evs /\ _call_openrouter (net k) = inr envelope) \/
  envelope = _heuristic_feedback emotion_summary calendar_suggestions.
Proof.
  unfold generate_feedback.
  destruct (openrouter_available self); [|right; reflexivity].
  pose proof (retry_loop_general self net) as G.
  destruct (_call_openrouter_with_retries self net) as [[e|envelope] evs];
    [right; reflexivity|].
  left. destruct G as (k & _ & _ & P & _ & _ & K & C).
  exists (Z.of_nat k). split; [|exact C].
  apply posts_of_In. rewrite P. apply in_map. apply in_seq. lia.
Qed.

(** X12. At the feedback agent the source tag is truthful. Every envelope
    [craft_message] returns has at least one recommendation; it is tagged
    [openrouter] only when it is the validated reply to a request that was
    really sent, and otherwise it carries the heuristic recommendations
    under one of the two heuristic tags. *)
Theorem craft_message_provenance (self : t) (net : network)
    (ctx : loop_context) (emotion_summary : Emotion)
    (calendar_suggestions : list pystr) (user_text : pystr) :
  let '(envelope, evs) :=
    craft_message self net ctx emotion_summary calendar_suggestions user_text in
  recommendations envelope <> [] /\
  ((source envelope = utf8 "openrouter" /\
    exists k, In (Post k) evs /\ _call_openrouter (net k) = inr envelope) \/
   ((source envelope = utf8 "heuristic_evidence_based"
     \/ source envelope = utf8 "heuristic_fallback") /\
    recommendations envelope =
    recommendations (_heuristic_feedback emotion_summary calendar_suggestions))).
Proof.
  pose proof (heuristic_recommendations_nonempty emotion_summary
                calendar_suggestions) as HN.
  assert (Fallback :
            let envelope :=
              set_source (_heuristic_feedback emotion_summary calendar_suggestions)
                         (utf8 "heuristic_fallback") in
            recommendations envelope <> [] /\
            ((source envelope = utf8 "heuristic_evidence_based"
              \/ source envelope = utf8 "heuristic_fallback") /\
             recommendations envelope =
             recommendations (_heuristic_feedback emotion_summary
                                calendar_suggestions))).
  { cbv zeta. cbn [set_source recommendations source].
    split; [exact HN|]. split; [right; reflexivity | reflexivity]. }
  cbv zeta in Fallback. destruct Fallback as [F1 F2].
  unfold craft_message.
  destruct (openrouter_available self) eqn:A; cbn [negb].
  2:{ split; [exact F1 | right; exact F2]. }
  pose proof (generate_feedback_provenance self net emotion_summary
                calendar_suggestions) as G.
  destruct (generate_feedback self net emotion_summary calendar_suggestions)
    as [envelope evs].
  assert (Coro : recommendations envelope <> [] /\
                 ((source envelope = utf8 "openrouter" /\
                   exists k, In (Post k) evs /\
                             _call_openrouter (net k) = inr envelope) \/
                  ((source envelope = utf8 "heuristic_evidence_based"
                    \/ source envelope = utf8 "heuristic_fallback") /\
                   recommendations envelope =
                   recommendations (_heuristic_feedback emotion_summary
                                      calendar_suggestions)))).
  { destruct G as [(k & I & C) | ->].
    - destruct (call_openrouter_accepted _ _ C) as [S N].
      split; [exact N|]. left. split; [exact S|]. exists k. split; assumption.
    - split; [exact HN|]. right. split; [left; reflexivity | reflexivity]. }
  destruct ctx as [| |[|]]; cbn [snd]; try exact Coro.
  split; [exact F1 | right; exact F2].
Qed.

(** X13. The heuristic generator always returns exactly three
    recommendations, of types [immediate], [short_term] and
    [professional] in that order, and the calendar suggestions never
    change its result: the transition-block recommendation it appends for
    them is cut off again by the truncation to three. *)
Theorem heuristic_feedback_ignores_calendar (emotion_summary : Emotion)
    (calendar_suggestions : list pystr) :
  _heuristic_feedback emotion_summary calendar_suggestions
  = _heuristic_feedback emotion_summary [] /\
  map recommendation_type
      (recommendations (_heuristic_feedback emotion_summary calendar_suggestions))
  = [Some (JStr (utf8 "immediate")); Some (JStr (utf8 "short_term"));
     Some (JStr (utf8 "professional"))] /\
  ~ In (recommendation "short_term"
          "BLOCO DE TRANSIÇÃO: 15min entre compromissos para recuperação"
          "Previne acumulação de fadiga decisória")
       (recommendations (_heuristic_feedback emotion_summary calendar_suggestions)).
Proof.
  assert (E : _heuristic_feedback emotion_summary calendar_suggestions
              = _heuristic_feedback emotion_summary []).
  { unfold _heuristic_feedback. cbv zeta.
    destruct calendar_suggestions as [|c cs]; [reflexivity|].
    destruct (any_in _ _ && Qgt_bool (stress_score emotion_summary) 0.5);
      [|reflexivity].
    repeat match goal with
           | |- context [if ?b then _ else _] => destruct b
           end; reflexivity. }
  split; [exact E|]. rewrite E. clear E.
  unfold _heuristic_feedback. cbv zeta. cbn [recommendations].
  repeat match goal with
         | |- context [if ?b then _ else _] => destruct b
         end;
    (split; [vm_compute; reflexivity|]);
    intro H; vm_compute in H;
    repeat (destruct H as [H|H]; [discriminate H|]); exact H.
Qed.

End FeedbackProvenance.

(** ** The coordinator: what every response satisfies *)

Lemma thousandths_unit (z : Z) :
  (0 <= z <= 1000)%Z -> 0 <= inject_Z z / 1000 <= 1.
Proof.
  intros [B0 B1]. unfold Qdiv, Qmult, Qinv, Qle, inject_Z. simpl. lia.
Qed.

Lemma scale_unit_1000 (x : Q) :
  0 <= x <= 1 -> inject_Z 0 <= x * 1000 /\ x * 1000 <= inject_Z 1000.
Proof.
  intros [H0 H1]. destruct x as [n d]. unfold Qle, Qmult, inject_Z in *.
  simpl in *. lia.
Qed.

Lemma round3_unit (x : Q) : 0 <= x <= 1 -> 0 <= round3 x <= 1.
Proof.
  intro H. unfold round3. apply thousandths_unit.
  destruct (scale_unit_1000 x H) as [L U].
  apply round_half_even_bounds; assumption.
Qed.

Lemma clamp_in_unit (x : Q) : 0 <= Qmax 0.0 (Qmin 1.0 x) <= 1.
Proof.
  pose proof (Q.le_max_l 0.0 (Qmin 1.0 x)) as L.
  pose proof (Q.le_min_l 1.0 x) as U.
  split; [lra|]. apply Q.max_lub; lra.
Qed.

Section CoordinatorInvariants.
Context {R : PyRuntime}.
Import Coordinator.

(** X14. Whatever the agents are and whatever they return or raise, a
    response assembled by [handle_text] reports a stress score and a
    valence in [0, 1], a slot budget of 2, 3 or 4, between 1 and 4 tasks,
    a schedule of exactly [min(total_tasks, available_slots)] entries, at
    most 5 calendar events, the intent it was built from, and
    [success = True]. *)
Theorem respond_invariants (self : t) (intent : InterfaceAgent.Intent) :
  let response := respond self intent in
  let sched := Response.optimized_schedule response in
  (0 <= stress_score (Response.emotion response) <= 1) /\
  (0 <= valence (Response.emotion response) <= 1) /\
  (exists slots n,
      Response.available_slots sched = Some slots /\
      Response.total_tasks sched = Some n /\
      (2 <= slots <= 4)%Z /\ (1 <= n <= 4)%Z /\
      len (Response.schedule sched) = Z.min n slots) /\
  (len (Response.events response) <= 5)%Z /\
  Response.raw_intent response = Some intent /\
  Response.success response = true.
Proof.
  intros response sched. subst sched response.
  unfold respond. cbv zeta.
  cbn [Response.emotion Response.optimized_schedule Response.available_slots
       Response.total_tasks Response.schedule Response.events
       Response.raw_intent Response.success stress_score valence].
  split; [apply round3_unit, clamp_in_unit|].
  split; [apply round3_unit, clamp_in_unit|].
  split; [|split; [|split; reflexivity]].
  - eexists. eexists. split; [reflexivity|]. split; [reflexivity|].
    match goal with
    | |- context [calculate_stress_slots ?s] =>
      pose proof (calculate_stress_slots_range s) as B;
      set (slots := calculate_stress_slots s) in *
    end.
    match goal with
    | |- context [_extract_tasks_from_text ?t ?sl] =>
      destruct (extract_tasks_nonempty t sl) as [_ L];
      set (tasks := _extract_tasks_from_text t sl) in *
    end.
    split; [exact B|]. split; [exact L|].
    destruct (bfs_schedule_fifo tasks slots ltac:(lia)) as [E _].
    exact E.
  - unfold len. rewrite length_firstn. lia.
Qed.

(** X15. The defaults of the degraded paths. Without an emotion agent, or
    when it raises, the response reports stress 0, valence 0, no dominant
    label and the full budget of 4 slots; without a feedback agent the
    message is the coordinator's own three recommendations tagged
    [Heuristic]; without a calendar agent there are no events. *)
Theorem respond_degraded_defaults (self : t) (intent : InterfaceAgent.Intent) :
  let response := respond self intent in
  ((emotion self = None \/
    exists ea e, emotion self = Some ea /\
                 classify ea (InterfaceAgent.raw_text intent) = inl e) ->
   stress_score (Response.emotion response) == 0 /\
   valence (Response.emotion response) == 0 /\
   dominant (Response.emotion response) = None /\
   Response.raw_emotion response = None /\
   Response.available_slots (Response.optimized_schedule response) = Some 4%Z) /\
  (feedback self = None -> Response.message response = default_response) /\
  (calendar self = None -> Response.events response = []).
Proof.
  intro response. subst response. split; [|split].
  - intro H.
    assert (E : match emotion self with
                | Some ea =>
                  match classify ea (InterfaceAgent.raw_text intent) with
                  | inr c => Some c
                  | inl _ => None
                  end
                | None => None
                end = None).
    { destruct H as [-> | (ea & e & -> & ->)]; reflexivity. }
    unfold respond. cbv zeta. rewrite E.
    cbn [Response.emotion Response.optimized_schedule Response.available_slots
         Response.raw_emotion _extract_emotion_scores
         stress_score valence dominant].
    repeat split; reflexivity.
  - intro F. unfold respond. cbv zeta. cbn [Response.message].
    unfold _safe_generate_feedback. rewrite F. reflexivity.
  - intro C. unfold respond. cbv zeta. cbn [Response.events].
    rewrite C. reflexivity.
Qed.

End CoordinatorInvariants.

(** ** The interface agent behind the coordinator *)

Section InterfaceProperties.
Context {R : PyRuntime}.
Import Coordinator.

(** [extract_intent] raises exactly when the sleep pattern matches a run
    of more digits than [int] converts. *)
Lemma extract_intent_raises (text : pystr) :
  (exists e, InterfaceAgent.extract_intent text = inl e) <->
  exists value n,
    InterfaceAgent.sleep_search (str_lower text) = Some (value, n) /\
    (0 < int_max_str_digits < Z.of_nat n)%Z.
Proof.
  unfold InterfaceAgent.extract_intent. cbv zeta.
  destruct (InterfaceAgent.sleep_search (str_lower text)) as [[value n]|].
  - unfold InterfaceAgent.int_of_digits.
    destruct ((0 <? int_max_str_digits)%Z
              && (int_max_str_digits <? Z.of_nat n)%Z) eqn:L.
    + apply andb_true_iff in L. destruct L as [L1 L2].
      apply Z.ltb_lt in L1. apply Z.ltb_lt in L2. split.
      * intros _. exists value, n. split; [reflexivity | lia].
      * intros _. eexists. reflexivity.
    + split.
      * intros [e E]. discriminate E.
      * intros (v & m & E & L1 & L2). injection E as <- <-.
        apply andb_false_iff in L. destruct L as [L|L].
        -- apply Z.ltb_ge in L. lia.
        -- apply Z.ltb_ge in L. lia.
  - split.
    + intros [e E]. discriminate E.
    + intros (v & m & E & _). discriminate E.
Qed.

Lemma interface_agent_fault (text : pystr) (e : exn) :
  extract_intent interface_agent text = inl e <->
  InterfaceAgent.extract_intent text = inl e.
Proof.
  unfold interface_agent. cbn [extract_intent].
  destruct (InterfaceAgent.extract_intent text) as [e'|i]; split; intro H;
    try discriminate H; injection H as ->; reflexivity.
Qed.

(** X16. With the repository's own interface agent, a non-blank text gets
    the error response ([success = False]) exactly when the sleep pattern
    [(\d+)\s*(h|horas)] matches, leftmost, a run of more digits than the
    interpreter's [int] converts; on an interpreter without that limit
    every non-blank text gets a response with [success = True]. *)
Theorem handle_text_digit_limit_fault (self : t) (text : pystr) :
  interface self = Some interface_agent ->
  is_blank (Some text) = false ->
  (Response.success (handle_text self (Some text)) = false <->
   exists value n,
     InterfaceAgent.sleep_search (str_lower text) = Some (value, n) /\
     (0 < int_max_str_digits < Z.of_nat n)%Z) /\
  (int_max_str_digits = 0%Z ->
   Response.success (handle_text self (Some text)) = true).
Proof.
  intros I B.
  assert (S : Response.success (handle_text self (Some text)) = false <->
              exists e, InterfaceAgent.extract_intent text = inl e).
  { unfold handle_text. rewrite B.
    destruct (handle_text_body self text) as [e|r] eqn:H.
    - split; [|reflexivity]. intros _. exists e.
      apply handle_text_body_fault in H. destruct H as (ia & I' & E).
      rewrite I in I'. injection I' as <-.
      apply interface_agent_fault. exact E.
    - rewrite (handle_text_body_success self text r H). split; [discriminate|].
      intros [e E]. apply interface_agent_fault in E.
      assert (F : handle_text_body self text = inl e).
      { apply handle_text_body_fault. exists interface_agent.
        split; assumption. }
      rewrite H in F. discriminate F. }
  split.
  - rewrite S. apply extract_intent_raises.
  - intro Z0. apply not_false_is_true. intro V.
    apply S in V. apply extract_intent_raises in V.
    destruct V as (v & n & _ & L). lia.
Qed.

Lemma any_in_split (ws a b : list pystr) (s : pystr) :
  (forall w, In w ws -> In w a \/ In w b) ->
  any_in ws s = true -> any_in a s = true \/ any_in b s = true.
Proof.
  unfold any_in. intros I H. apply existsb_exists in H.
  destruct H as (w & Hw & C). destruct (I w Hw) as [A|B].
  - left. apply existsb_exists. exists w. split; assumption.
  - right. apply existsb_exists. exists w. split; assumption.
Qed.

(** X17. When the interface agent finds a mention of study or work in the
    text, its placeholder task is the first task of the coordinator, the
    keyword scan adds a study or a project task, and so the task list has
    at least two entries. *)
Theorem task_mention_is_scheduled (text : pystr) (intent : InterfaceAgent.Intent) :
  InterfaceAgent.extract_intent text = inr intent ->
  any_in (map utf8 ["estudar"; "tarefa"; "trabalho"; "projeto"]%string)
         (str_lower text) = true ->
  let tasks :=
    _extract_tasks_from_text (InterfaceAgent.raw_text intent)
                             (InterfaceAgent.slots intent) in
  nth_error tasks 0 = Some (utf8 "referência a estudo/trabalho") /\
  (2 <= len tasks)%Z /\
  (In (utf8 "Estudo/Revisão") tasks \/ In (utf8 "Trabalho de Projeto") tasks).
Proof.
  intros E M tasks. subst tasks.
  assert (K : any_in study_keywords (str_lower text) = true \/
              any_in project_keywords (str_lower text) = true).
  { apply (any_in_split
             (map utf8 ["estudar"; "tarefa"; "trabalho"; "projeto"]%string));
      [|exact M].
    intros w H. apply str_mem_In in H. unfold str_mem in H.
    cbn [map existsb] in H.
    repeat (apply orb_true_iff in H; destruct H as [H|H];
            [apply str_eqb_eq in H; subst w;
             first [ left; apply str_mem_In; vm_compute; reflexivity
                   | right; apply str_mem_In; vm_compute; reflexivity ]|]).
    discriminate H. }
  unfold InterfaceAgent.extract_intent in E. cbv zeta in E. rewrite M in E.
  destruct (match InterfaceAgent.sleep_search (str_lower text) with
            | Some (value, n) =>
              match InterfaceAgent.int_of_digits value n with
              | inr hours => inr (Some hours)
              | inl e => inl e
              end
            | None => inr None
            end) as [e|sleep_hours]; [discriminate E|].
  injection E as <-.
  cbn [InterfaceAgent.raw_text InterfaceAgent.slots].
  unfold _extract_tasks_from_text, slot_tasks. cbv zeta.
  cbn [InterfaceAgent.tasks].
  repeat match goal with
         | |- context [if ?b then _ else _] =>
           match type of b with bool => destruct b eqn:? end
         end;
    try (destruct K as [K|K]; congruence);
    vm_compute; (split; [reflexivity|]); (split; [discriminate|]);
    tauto.
Qed.

End InterfaceProperties.

Lemma handle_text_digit_limit_fault_witness :
  Coordinator.interface (coordinator_interface_only runtime_limit3)
  = Some (@Coordinator.interface_agent runtime_limit3) /\
  Coordinator.is_blank (Some (utf8 "dormi 12345 h")) = false /\
  Response.success
    (@Coordinator.handle_text runtime_limit3
       (coordinator_interface_only runtime_limit3)
       (Some (utf8 "dormi 12345 h"))) = false.
Proof.
  split; [reflexivity|]. split; [reflexivity|].
  apply (proj1 (@handle_text_digit_limit_fault runtime_limit3
                  (coordinator_interface_only runtime_limit3)
                  (utf8 "dormi 12345 h") eq_refl eq_refl)).
  exists 12345%Z, 5%nat. split; [reflexivity | split; reflexivity].
Defined.

Lemma task_mention_is_scheduled_witness :
  match @InterfaceAgent.extract_intent latin1 text_study with
  | inr intent =>
    any_in (map utf8 ["estudar"; "tarefa"; "trabalho"; "projeto"]%string)
           (@str_lower latin1 text_study) = true /\
    nth_error (@Coordinator._extract_tasks_from_text latin1
                 (InterfaceAgent.raw_text intent) (InterfaceAgent.slots intent))
              0
    = Some (utf8 "referência a estudo/trabalho")
  | inl _ => False
  end.
Proof.
  destruct (@InterfaceAgent.extract_intent latin1 text_study) as [e|intent] eqn:E.
  - vm_compute in E. discriminate E.
  - split; [reflexivity|].
    exact (proj1 (@task_mention_is_scheduled latin1 text_study intent E eq_refl)).
Defined.

(** ** The risk check and the classifier *)

Section RiskProperties.
Context {R : PyRuntime}.
Import EmotionAgent.

(** An indicator that occurs in the text is counted with its weight. *)
Lemma stress_loop_counts (lower w : pystr) (l : list pystr) : forall acc : Z,
  In w l -> contains w lower = true ->
  (acc + indicator_weight w <=
   fold_left (fun stress_count w =>
                if contains w lower
                then (stress_count + indicator_weight w)%Z
                else stress_count) l acc)%Z.
Proof.
  induction l as [|x l IH]; intros acc I C; [contradiction|].
  cbn [fold_left]. destruct I as [->|I].
  - rewrite C.
    pose proof (stress_loop_spec lower l (acc + indicator_weight w)%Z) as [L _].
    exact L.
  - pose proof (indicator_weight_pos x) as P.
    destruct (contains x lower).
    + specialize (IH (acc + indicator_weight x)%Z I C). lia.
    + apply IH; assumption.
Qed.

(** On a string, [text or ""] is the string itself. *)
Lemma check_risk_str (text : pystr) :
  check_risk (Some text) = any_in RISK_KEYWORDS (str_lower text).
Proof. destruct text; reflexivity. Qed.

(** X18. A text that contains the indicator "não aguento mais" is flagged
    by the risk check and, by the classifier, gets the stress score 1 and
    the label [alto_stress]: the strongest indicator of the classifier
    always raises the safety flag as well. *)
Theorem strongest_indicator_is_flagged (text : pystr) :
  contains (utf8 "não aguento mais") (str_lower text) = true ->
  check_risk (Some text) = true /\
  (4 <= stress_count_of (str_lower text))%Z /\
  stress_score (emotion (_classify_heuristic text)) == 1 /\
  dominant (emotion (_classify_heuristic text)) = Some (utf8 "alto_stress").
Proof.
  intro C.
  assert (K : contains (utf8 "não aguento") (str_lower text) = true).
  { apply (contains_trans _ (utf8 "não aguento mais")); [|exact C].
    vm_compute. reflexivity. }
  assert (N : (4 <= stress_count_of (str_lower text))%Z).
  { pose proof (stress_loop_counts (str_lower text) (utf8 "não aguento mais")
                  stress_indicators 0%Z) as L.
    assert (I : In (utf8 "não aguento mais") stress_indicators)
      by (apply str_mem_In; vm_compute; reflexivity).
    specialize (L I C).
    change (indicator_weight (utf8 "não aguento mais")) with 4%Z in L.
    unfold stress_count_of. exact L. }
  split; [|split; [exact N|split]].
  - rewrite check_risk_str. unfold any_in. apply existsb_exists.
    exists (utf8 "não aguento"). split; [|exact K].
    apply str_mem_In. vm_compute. reflexivity.
  - destruct (heuristic_stress_values text) as (S & _ & _). cbv zeta in S.
    rewrite S. unfold stress_table.
    replace (stress_count_of (str_lower text) =? 0)%Z with false
      by (symmetry; apply Z.eqb_neq; lia).
    replace (stress_count_of (str_lower text) =? 1)%Z with false
      by (symmetry; apply Z.eqb_neq; lia).
    replace (stress_count_of (str_lower text) =? 2)%Z with false
      by (symmetry; apply Z.eqb_neq; lia).
    reflexivity.
  - destruct (heuristic_dominant_values text) as [D _]. cbv zeta in D.
    rewrite D. unfold dominant_table.
    replace (2 <=? stress_count_of (str_lower text))%Z with true
      by (symmetry; apply Z.leb_le; lia).
    reflexivity.
Qed.

End RiskProperties.

Lemma strongest_indicator_is_flagged_witness :
  contains (utf8 "não aguento mais")
           (@str_lower latin1 (utf8 "Eu NÃO AGUENTO MAIS isto")) = true /\
  @check_risk latin1 (Some (utf8 "Eu NÃO AGUENTO MAIS isto")) = true.
Proof.
  assert (C : contains (utf8 "não aguento mais")
                (@str_lower latin1 (utf8 "Eu NÃO AGUENTO MAIS isto")) = true)
    by (vm_compute; reflexivity).
  split; [exact C|].
  exact (proj1 (@strongest_indicator_is_flagged latin1
                  (utf8 "Eu NÃO AGUENTO MAIS isto") C)).
Defined.
